(** * GitHub Activity CLI: a shallow embedding of [github_activity.py]

    The script fetches a user's public events, renders every event whose type
    is known through a table of format templates and prints at most
    [max_events] of them.  This development embeds the script function by
    function and settles the properties its specification states.

    Layout:
    - [Py]: the fragment of the Python runtime the script relies on (JSON
      values, exceptions, [str], [repr], [int], [str.format], ...);
    - [Datetime]: [datetime.fromisoformat] and [strftime];
    - [IO]: the process (what it prints, what it requests, how it ends) and
      the remote side;
    - [GitHubActivityFetcher]: the class of the script, method by method;
    - [main];
    - [Spec]: the vocabulary of the specification;
    - the lemmas, then one theorem per claim of the specification, and then
      further properties of the script (X1, X2, ...). *)

From Stdlib Require Import String Ascii ZArith List Bool Lia.
From Stdlib Require Import DecimalString.
Import ListNotations.
Open Scope string_scope.

(* ===================================================================== *)
(** * The Python runtime                                                  *)
(* ===================================================================== *)

Module Py.

(** A Python [str] is kept as the string of its UTF-8 bytes, so the literals
    of the script (emoji included) are the literals of this file and
    concatenation is concatenation.  Where Python consults the Unicode
    database (white space for [strip], digits for [int], printable characters
    for [repr]) the model decides on the ASCII range and takes a byte above
    127 as an ordinary printable character. *)

(** What [json.loads] can yield.  A float is kept as its [repr] text, which
    identifies it; a dict as an association list in insertion order, looked
    up from the front. *)
#[warnings="-register-all"]
Inductive value : Type :=
| VNone
| VBool (b : bool)
| VInt (n : Z)
| VFloat (r : string)
| VStr (s : string)
| VList (l : list value)
| VDict (d : list (string * value)).

Definition dict : Type := list (string * value).

(** The exceptions that occur in the script, each with the text [str(e)]
    needs.  [SystemExit] is the only one outside [Exception]. *)
Inductive exn : Type :=
| KeyError (key : string)
| TypeError (msg : string)
| AttributeError (msg : string)
| ValueError (msg : string)
| JSONDecodeError (msg : string)
| HTTPError (code : Z) (reason : string)
| URLError (reason : string)
| OtherException (msg : string)
| SystemExit (status : Z).

(** A computation that returns or raises. *)
Inductive result (A : Type) : Type :=
| Ok (a : A)
| Raise (e : exn).
Arguments Ok {A} a.
Arguments Raise {A} e.

Definition bind {A B : Type} (r : result A) (k : A -> result B) : result B :=
  match r with
  | Ok a => k a
  | Raise e => Raise e
  end.

Notation "x <- c ;; k" := (bind c (fun x => k))
  (at level 61, c at next level, right associativity).

(** ** Dictionaries *)

(** [d.get(key)]: [None] stands for the missing key. *)
Fixpoint dict_get (key : string) (d : dict) : option value :=
  match d with
  | [] => None
  | (k, v) :: rest => if String.eqb k key then Some v else dict_get key rest
  end.

(** [obj[key]] with a string key: only a dict can be indexed that way. *)
Definition getitem (obj : value) (key : string) : result value :=
  match obj with
  | VDict d =>
      match dict_get key d with
      | Some v => Ok v
      | None => Raise (KeyError key)
      end
  | VList _ => Raise (TypeError "list indices must be integers or slices, not str")
  | VStr _ => Raise (TypeError "string indices must be integers")
  | VNone => Raise (TypeError "'NoneType' object is not subscriptable")
  | VBool _ => Raise (TypeError "'bool' object is not subscriptable")
  | VInt _ => Raise (TypeError "'int' object is not subscriptable")
  | VFloat _ => Raise (TypeError "'float' object is not subscriptable")
  end.

(** Lists and dicts cannot be hashed, so [x in some_dict] raises on them. *)
Definition hashable (v : value) : bool :=
  match v with
  | VList _ | VDict _ => false
  | _ => true
  end.

(** Truth value of an object, as [if x:] takes it. *)
Definition truthy (v : value) : bool :=
  match v with
  | VNone => false
  | VBool b => b
  | VInt n => negb (Z.eqb n 0)
  | VFloat r => negb (String.eqb r "0.0" || String.eqb r "-0.0")
  | VStr s => negb (String.eqb s "")
  | VList l => match l with [] => false | _ => true end
  | VDict d => match d with [] => false | _ => true end
  end.

(** ** [str] and [repr] *)

Definition str_of_int (n : Z) : string := NilZero.string_of_int (Z.to_int n).

Definition hex_digit (n : nat) : ascii :=
  match n with
  | 0 => "0" | 1 => "1" | 2 => "2" | 3 => "3" | 4 => "4" | 5 => "5"
  | 6 => "6" | 7 => "7" | 8 => "8" | 9 => "9" | 10 => "a" | 11 => "b"
  | 12 => "c" | 13 => "d" | 14 => "e" | _ => "f"
  end%char.

Definition char_in (c : ascii) (s : string) : bool :=
  existsb (Ascii.eqb c) (list_ascii_of_string s).

(** One character of a [repr]: backslash and the chosen quote are escaped,
    tab, newline and return get their letters, other control characters
    their [\xNN]. *)
Definition repr_char (quote c : ascii) : string :=
  let n := nat_of_ascii c in
  if Ascii.eqb c "\" then "\\"
  else if Ascii.eqb c quote then String "\" (String quote "")
  else if Nat.eqb n 9 then "\t"
  else if Nat.eqb n 10 then "\n"
  else if Nat.eqb n 13 then "\r"
  else if Nat.ltb n 32 || Nat.eqb n 127
       then String "\" (String "x" (String (hex_digit (n / 16)) (String (hex_digit (n mod 16)) "")))
  else String c "".

(** [repr] of a [str]: single quotes, unless the text has a single quote and
    no double quote. *)
Definition repr_str (s : string) : string :=
  let dquote : ascii := ascii_of_nat 34 in
  let quote : ascii :=
    if char_in "'" s && negb (char_in dquote s) then dquote else "'"%char in
  String quote
    (String.concat "" (map (repr_char quote) (list_ascii_of_string s))
     ++ String quote "").

Fixpoint repr (v : value) : string :=
  match v with
  | VNone => "None"
  | VBool true => "True"
  | VBool false => "False"
  | VInt n => str_of_int n
  | VFloat r => r
  | VStr s => repr_str s
  | VList l => "[" ++ String.concat ", " (map repr l) ++ "]"
  | VDict d =>
      "{" ++ String.concat ", "
               (map (fun kv => match kv with
                               | (k, x) => repr_str k ++ ": " ++ repr x
                               end) d)
          ++ "}"
  end.

(** [str(v)], which is also [format(v, '')]: a [str] is itself, everything
    else is its [repr]. *)
Definition str (v : value) : string :=
  match v with
  | VStr s => s
  | _ => repr v
  end.

(** ** [str.format]

    The templates of the script use the format mini-language in one way only:
    literal text and replacement fields [{name[key]...}] with string keys.
    [parse_template] reads that fragment; anything else (escaped braces,
    attribute access, conversions, format specs, numbered fields) is outside
    it and yields [None]. *)

Inductive piece : Type :=
| Lit (c : ascii)
| Field (name : string) (keys : list string).

Inductive scan : Type :=
| InText
| InName (name : string)
| InKey (name : string) (keys : list string) (key : string)
| AfterKey (name : string) (keys : list string).

Definition snoc (s : string) (c : ascii) : string := s ++ String c "".

Fixpoint parse_fields (st : scan) (s : string) : option (list piece) :=
  match s with
  | "" => match st with InText => Some [] | _ => None end
  | String c rest =>
      match st with
      | InText =>
          if Ascii.eqb c "{" then parse_fields (InName "") rest
          else if Ascii.eqb c "}" then None
          else option_map (cons (Lit c)) (parse_fields InText rest)
      | InName name =>
          if Ascii.eqb c "}" then
            if String.eqb name "" then None
            else option_map (cons (Field name [])) (parse_fields InText rest)
          else if Ascii.eqb c "[" then parse_fields (InKey name [] "") rest
          else if char_in c ".!:{" then None
          else parse_fields (InName (snoc name c)) rest
      | InKey name keys key =>
          if Ascii.eqb c "]" then
            if String.eqb key "" then None
            else parse_fields (AfterKey name (keys ++ [key])) rest
          else parse_fields (InKey name keys (snoc key c)) rest
      | AfterKey name keys =>
          if Ascii.eqb c "}" then
            option_map (cons (Field name keys)) (parse_fields InText rest)
          else if Ascii.eqb c "[" then parse_fields (InKey name keys "") rest
          else None
      end
  end.

Definition parse_template (template : string) : option (list piece) :=
  parse_fields InText template.

(** The object a replacement field denotes: [kwargs[name]], then one
    [obj[key]] per key, left to right. *)
Fixpoint getitems (obj : value) (keys : list string) : result value :=
  match keys with
  | [] => Ok obj
  | key :: rest => v <- getitem obj key ;; getitems v rest
  end.

Definition get_field (kwargs : dict) (name : string) (keys : list string)
  : result value :=
  match dict_get name kwargs with
  | Some obj => getitems obj keys
  | None => Raise (KeyError name)
  end.

(** The pieces are rendered left to right; the first field that cannot be
    resolved raises and ends the rendering. *)
Fixpoint render (pieces : list piece) (kwargs : dict) : result string :=
  match pieces with
  | [] => Ok ""
  | Lit c :: rest => tail <- render rest kwargs ;; Ok (String c tail)
  | Field name keys :: rest =>
      v <- get_field kwargs name keys ;;
      tail <- render rest kwargs ;;
      Ok (str v ++ tail)
  end.

(** [template.format( **kwargs )]. *)
Definition format (template : string) (kwargs : dict) : result string :=
  match parse_template template with
  | Some pieces => render pieces kwargs
  | None => Raise (ValueError "format string outside the modelled fragment")
  end.

(** ** [str.replace], [str.strip], [int] *)

(** [s.replace(old, new)] for a one-character [old]. *)
Fixpoint replace (old : ascii) (new s : string) : string :=
  match s with
  | "" => ""
  | String c rest =>
      if Ascii.eqb c old then new ++ replace old new rest
      else String c (replace old new rest)
  end.

(** White space of the ASCII range: tab, line feed, vertical tab, form feed,
    carriage return, the four separators 28..31 and the space. *)
Definition isspace (c : ascii) : bool :=
  let n := nat_of_ascii c in
  (Nat.leb 9 n && Nat.leb n 13) || (Nat.leb 28 n && Nat.leb n 31) || Nat.eqb n 32.

Fixpoint lstrip (s : string) : string :=
  match s with
  | "" => ""
  | String c rest => if isspace c then lstrip rest else s
  end.

Fixpoint rstrip (s : string) : string :=
  match s with
  | "" => ""
  | String c rest =>
      match rstrip rest with
      | "" => if isspace c then "" else String c ""
      | kept => String c kept
      end
  end.

Definition strip (s : string) : string := rstrip (lstrip s).

Definition digit_of (c : ascii) : option Z :=
  let n := nat_of_ascii c in
  if Nat.leb 48 n && Nat.leb n 57 then Some (Z.of_nat (n - 48)) else None.

(** Digits with single underscores between them, as [int] reads them;
    [acc] is the value so far and [after_digit] tells whether an underscore
    may come next. *)
Fixpoint int_digits (acc : Z) (after_digit : bool) (s : string) : option Z :=
  match s with
  | "" => if after_digit then Some acc else None
  | String c rest =>
      match digit_of c with
      | Some d => int_digits (10 * acc + d) true rest
      | None =>
          if Ascii.eqb c "_" && after_digit then int_digits acc false rest
          else None
      end
  end.

(** [int(s)] in base ten: surrounding white space, an optional sign, then
    digits.  [None] is the [ValueError].  The bound that recent versions put
    on the number of digits is not modelled. *)
Definition int (s : string) : option Z :=
  match strip s with
  | String "+" rest => int_digits 0 false rest
  | String "-" rest => option_map Z.opp (int_digits 0 false rest)
  | body => int_digits 0 false body
  end.

End Py.

(* ===================================================================== *)
(** * [datetime]                                                          *)
(* ===================================================================== *)

Module Datetime.

(** [datetime.fromisoformat] as the library documents it for the versions in
    which a trailing [Z] is not read (which is why the script rewrites it):
    [YYYY-MM-DD[*HH[:MM[:SS[.fff[fff]]]][+HH:MM[:SS[.ffffff]]]]], where [*] is
    any one character; the constructor then checks the ranges.  [None] is the
    [ValueError]. *)

Record datetime : Type := mk_datetime {
  year : Z;
  month : Z;
  day : Z;
  hour : Z;
  minute : Z;
  second : Z;
  microsecond : Z;
  tzoffset : option Z  (* offset from UTC in microseconds; [None] is naive *)
}.

Definition is_leap (y : Z) : bool :=
  (y mod 4 =? 0)%Z && (negb (y mod 100 =? 0)%Z || (y mod 400 =? 0)%Z).

Definition days_in_month (y m : Z) : Z :=
  if (m =? 2)%Z then (if is_leap y then 29 else 28)
  else if (m =? 4)%Z || (m =? 6)%Z || (m =? 9)%Z || (m =? 11)%Z then 30
  else 31.

Definition between (lo x hi : Z) : bool := (lo <=? x)%Z && (x <=? hi)%Z.

(** The checks of the [datetime] constructor. *)
Definition valid (dt : datetime) : bool :=
  between 1 (year dt) 9999 && between 1 (month dt) 12
  && between 1 (day dt) (days_in_month (year dt) (month dt))
  && between 0 (hour dt) 23 && between 0 (minute dt) 59
  && between 0 (second dt) 59 && between 0 (microsecond dt) 999999.

(** Exactly [n] decimal digits. *)
Fixpoint parse_digits (n : nat) (acc : Z) (s : string) : option (Z * string) :=
  match n with
  | O => Some (acc, s)
  | S n' =>
      match s with
      | "" => None
      | String c rest =>
          match Py.digit_of c with
          | Some d => parse_digits n' (10 * acc + d) rest
          | None => None
          end
      end
  end.

Definition expect (c : ascii) (s : string) : option string :=
  match s with
  | String c' rest => if Ascii.eqb c c' then Some rest else None
  | "" => None
  end.

(** [YYYY-MM-DD], and what follows it. *)
Definition parse_isoformat_date (s : string) : option (Z * Z * Z * string) :=
  match parse_digits 4 0 s with
  | Some (y, s1) =>
      match expect "-" s1 with
      | Some s2 =>
          match parse_digits 2 0 s2 with
          | Some (m, s3) =>
              match expect "-" s3 with
              | Some s4 =>
                  match parse_digits 2 0 s4 with
                  | Some (d, s5) => Some (y, m, d, s5)
                  | None => None
                  end
              | None => None
              end
          | None => None
          end
      | None => None
      end
  | None => None
  end.

(** The optional fraction after the seconds: nothing, or a dot and exactly
    three or six digits up to the end. *)
Definition parse_fraction (s : string) : option Z :=
  match s with
  | "" => Some 0%Z
  | String "." digits =>
      if Nat.eqb (String.length digits) 3 then
        match parse_digits 3 0 digits with
        | Some (ms, _) => Some (ms * 1000)%Z
        | None => None
        end
      else if Nat.eqb (String.length digits) 6 then
        match parse_digits 6 0 digits with
        | Some (us, _) => Some us
        | None => None
        end
      else None
  | _ => None
  end.

(** [HH[:MM[:SS[.fff[fff]]]]] over the whole of [s]. *)
Definition parse_hh_mm_ss_ff (s : string) : option (Z * Z * Z * Z) :=
  match parse_digits 2 0 s with
  | None => None
  | Some (h, "") => Some (h, 0, 0, 0)%Z
  | Some (h, s1) =>
      match expect ":" s1 with
      | None => None
      | Some s2 =>
          match parse_digits 2 0 s2 with
          | None => None
          | Some (mi, "") => Some (h, mi, 0, 0)%Z
          | Some (mi, s3) =>
              match expect ":" s3 with
              | None => None
              | Some s4 =>
                  match parse_digits 2 0 s4 with
                  | None => None
                  | Some (sec, s5) =>
                      match parse_fraction s5 with
                      | Some us => Some (h, mi, sec, us)
                      | None => None
                      end
                  end
              end
          end
      end
  end.

(** The text before the first sign, and the sign with what follows it. *)
Fixpoint split_offset (s : string) : string * option (ascii * string) :=
  match s with
  | "" => ("", None)
  | String c rest =>
      if Ascii.eqb c "+" || Ascii.eqb c "-" then ("", Some (c, rest))
      else let '(before, off) := split_offset rest in (String c before, off)
  end.

(** An offset is [HH:MM], [HH:MM:SS] or [HH:MM:SS.ffffff] and must stay
    strictly within a day. *)
Definition parse_offset (sign : ascii) (s : string) : option Z :=
  let n := String.length s in
  if Nat.eqb n 5 || Nat.eqb n 8 || Nat.eqb n 15 then
    match parse_hh_mm_ss_ff s with
    | Some (h, mi, sec, us) =>
        let total := (((h * 60 + mi) * 60 + sec) * 1000000 + us)%Z in
        if (total <? 86400000000)%Z
        then Some (if Ascii.eqb sign "-" then (- total)%Z else total)
        else None
    | None => None
    end
  else None.

Definition parse_isoformat_time (s : string)
  : option (Z * Z * Z * Z * option Z) :=
  let '(timestr, off) := split_offset s in
  match parse_hh_mm_ss_ff timestr with
  | None => None
  | Some (h, mi, sec, us) =>
      match off with
      | None => Some (h, mi, sec, us, None)
      | Some (sign, tzstr) =>
          match parse_offset sign tzstr with
          | Some tz => Some (h, mi, sec, us, Some tz)
          | None => None
          end
      end
  end.

(** The separator is one character, that is one to four bytes of UTF-8. *)
Definition skip_char (s : string) : string :=
  match s with
  | "" => ""
  | String c rest =>
      let n := nat_of_ascii c in
      if Nat.ltb n 128 then rest
      else if Nat.eqb (n / 16) 14 then String.substring 2 (String.length rest) rest
      else if Nat.eqb (n / 16) 15 then String.substring 3 (String.length rest) rest
      else String.substring 1 (String.length rest) rest
  end.

Definition construct (dt : datetime) : option datetime :=
  if valid dt then Some dt else None.

Definition fromisoformat (s : string) : option datetime :=
  match parse_isoformat_date s with
  | None => None
  | Some (y, m, d, "") => construct (mk_datetime y m d 0 0 0 0 None)
  | Some (y, m, d, rest) =>
      match parse_isoformat_time (skip_char rest) with
      | Some (h, mi, sec, us, tz) => construct (mk_datetime y m d h mi sec us tz)
      | None => None
      end
  end.

(** ** [strftime] *)

Definition digit_char (d : Z) : ascii := ascii_of_nat (48 + Z.to_nat (d mod 10)).

Definition pad2 (n : Z) : string :=
  String (digit_char (n / 10)) (String (digit_char n) "").

Definition pad4 (n : Z) : string :=
  String (digit_char (n / 1000)) (String (digit_char (n / 100)) (pad2 n)).

(** [dt.strftime('%Y-%m-%d %H:%M')], each field zero-padded as the library
    documents the directives. *)
Definition strftime (dt : datetime) : string :=
  pad4 (year dt) ++ "-" ++ pad2 (month dt) ++ "-" ++ pad2 (day dt)
  ++ " " ++ pad2 (hour dt) ++ ":" ++ pad2 (minute dt).

End Datetime.

(* ===================================================================== *)
(** * The process and its surroundings                                    *)
(* ===================================================================== *)

Module IO.
Import Py.

(** What the body of the [try] in [fetch_activity] comes to: the decoded
    feed, or the exception that [urlopen], [decode] or [json.loads] raised. *)
Inductive response : Type :=
| Events (events : list dict)
| Fails (e : exn).

(** The state of a run: the remote side, which answers a URL, and what the
    process has written and requested so far. *)
Record world : Type := mk_world {
  network : string -> response;
  stdout : list string;
  stderr : list string;
  requests : list string
}.

Definition start (net : string -> response) : world := mk_world net [] [] [].

Definition M (A : Type) : Type := world -> result A * world.

Definition ret {A : Type} (a : A) : M A := fun w => (Ok a, w).

Definition raise {A : Type} (e : exn) : M A := fun w => (Raise e, w).

Definition lift {A : Type} (r : result A) : M A := fun w => (r, w).

Definition bindM {A B : Type} (m : M A) (k : A -> M B) : M B :=
  fun w =>
    match m w with
    | (Ok a, w') => k a w'
    | (Raise e, w') => (Raise e, w')
    end.

Notation "x <~ c ;; k" := (bindM c (fun x => k))
  (at level 61, c at next level, right associativity).
Notation "c ;;; k" := (bindM c (fun _ => k))
  (at level 61, right associativity).

(** [print(text)] and [print(text, file=sys.stderr)]: one entry per call. *)
Definition print (text : string) : M unit :=
  fun w => (Ok tt, mk_world (network w) (stdout w ++ [text]) (stderr w) (requests w)).

Definition eprint (text : string) : M unit :=
  fun w => (Ok tt, mk_world (network w) (stdout w) (stderr w ++ [text]) (requests w)).

Definition sys_exit {A : Type} (status : Z) : M A := raise (SystemExit status).

(** The one request of a run: it is recorded, and the remote side answers. *)
Definition urlopen_json (url : string) : M response :=
  fun w => (Ok (network w url),
            mk_world (network w) (stdout w) (stderr w) (requests w ++ [url])).

(** The status the process ends with: 0 when [main] returns, the argument of
    [sys.exit], and 1 for an exception nobody caught. *)
Definition exit_status {A : Type} (r : result A) : Z :=
  match r with
  | Ok _ => 0
  | Raise (SystemExit status) => status
  | Raise _ => 1
  end.

(** ** Exception classes, for [except] clauses *)

Inductive exn_class : Type :=
| CKeyError | CValueError | CJSONDecodeError | CHTTPError | CURLError
| CException.

Definition isinstance (e : exn) (c : exn_class) : bool :=
  match e, c with
  | SystemExit _, _ => false
  | _, CException => true
  | KeyError _, CKeyError => true
  | ValueError _, CValueError => true
  | JSONDecodeError _, (CJSONDecodeError | CValueError) => true
  | HTTPError _ _, (CHTTPError | CURLError) => true
  | URLError _, CURLError => true
  | _, _ => false
  end.

Definition code (e : exn) : Z :=
  match e with HTTPError c _ => c | _ => 0 end.

Definition reason (e : exn) : string :=
  match e with HTTPError _ r | URLError r => r | _ => "" end.

(** [str(e)]. *)
Definition str_exn (e : exn) : string :=
  match e with
  | KeyError key => repr_str key
  | TypeError msg | AttributeError msg | ValueError msg
  | JSONDecodeError msg | OtherException msg => msg
  | HTTPError c r => "HTTP Error " ++ str_of_int c ++ ": " ++ r
  | URLError r => "<urlopen error " ++ r ++ ">"
  | SystemExit status => str_of_int status
  end.

End IO.

(* ===================================================================== *)
(** * [class GitHubActivityFetcher]                                       *)
(* ===================================================================== *)

Module GitHubActivityFetcher.
Import Py IO.

Definition nl : string := String (ascii_of_nat 10) "".

Definition BASE_URL : string := "https://api.github.com/users".

(** Event type mappings to human-readable messages. *)
Definition EVENT_MESSAGES : list (string * string) :=
  [ ("PushEvent", "Pushed {payload[commits]} commits to {repo[name]}");
    ("IssuesEvent", "{payload[action]} an issue in {repo[name]}");
    ("IssueCommentEvent", "Commented on an issue in {repo[name]}");
    ("WatchEvent", "Starred {repo[name]}");
    ("ForkEvent", "Forked {repo[name]}");
    ("CreateEvent", "Created {payload[ref_type]} in {repo[name]}");
    ("DeleteEvent", "Deleted {payload[ref_type]} in {repo[name]}");
    ("PullRequestEvent", "{payload[action]} a pull request in {repo[name]}");
    ("ReleaseEvent", "Released {payload[release][tag_name]} in {repo[name]}");
    ("PublicEvent", "Made {repo[name]} public");
    ("MemberEvent", "{payload[action]} a collaborator to {repo[name]}") ].

Fixpoint lookup (key : string) (table : list (string * string)) : option string :=
  match table with
  | [] => None
  | (k, v) :: rest => if String.eqb k key then Some v else lookup key rest
  end.

(** [x in self.EVENT_MESSAGES]: the object is hashed first, and only a
    string can equal a key. *)
Definition contains (table : list (string * string)) (x : value) : result bool :=
  match x with
  | VList _ => Raise (TypeError "unhashable type: 'list'")
  | VDict _ => Raise (TypeError "unhashable type: 'dict'")
  | VStr s => Ok (match lookup s table with Some _ => true | None => false end)
  | _ => Ok false
  end.

(** [self.EVENT_MESSAGES[x]]. *)
Definition subscript (table : list (string * string)) (x : value) : result string :=
  match x with
  | VList _ => Raise (TypeError "unhashable type: 'list'")
  | VDict _ => Raise (TypeError "unhashable type: 'dict'")
  | VStr s =>
      match lookup s table with
      | Some v => Ok v
      | None => Raise (KeyError s)
      end
  | other => Raise (KeyError (repr other))
  end.

(** [d.get(key)] and [obj.get(key, default)]; only a dict has the method. *)
Definition get (d : dict) (key : string) : value :=
  match dict_get key d with
  | Some v => v
  | None => VNone
  end.

Definition get_default (obj : value) (key : string) (default : value)
  : result value :=
  match obj with
  | VDict d =>
      Ok (match dict_get key d with Some v => v | None => default end)
  | _ => Raise (AttributeError "object has no attribute 'get'")
  end.

(** Format ISO timestamp to readable format.  The argument is whatever the
    event holds under [created_at]; only a [str] has [replace]. *)
Definition _format_timestamp (timestamp_str : value) : result string :=
  match timestamp_str with
  | VStr s =>
      match Datetime.fromisoformat (replace "Z" "+00:00" s) with
      | Some dt => Ok (Datetime.strftime dt)
      | None => Ok s                                    (* except ValueError *)
      end
  | _ => Raise (AttributeError "object has no attribute 'replace'")
  end.

(** Format a GitHub event into a human-readable string, [None] when the
    event type is not supported. *)
Definition format_event (event : dict) : result (option string) :=
  let event_type := get event "type" in
  known <- contains EVENT_MESSAGES event_type ;;
  if known then
    let attempt : result (option string) :=
      message_template <- subscript EVENT_MESSAGES event_type ;;
      message <- format message_template event ;;
      (* Add timestamp if available *)
      let created_at := get event "created_at" in
      if truthy created_at then
        timestamp <- _format_timestamp created_at ;;
        Ok (Some (timestamp ++ " - " ++ message))
      else Ok (Some message) in
    match attempt with
    | Raise e =>
        if isinstance e CKeyError then
          let repo :=
            match dict_get "repo" event with Some v => v | None => VDict [] end in
          name <- get_default repo "name" (VStr "unknown") ;;
          Ok (Some (str event_type ++ " in " ++ str name))
        else Raise e
    | returned => returned
    end
  else Ok None.

(** Print error message and exit. *)
Definition _print_error (message : string) : M unit :=
  eprint ("❌ Error: " ++ message) ;;; sys_exit 1.

(** Fetch recent activity for a GitHub user.  [None] is the value a call
    would return by falling off the end of a handler. *)
Definition fetch_activity (username : string) : M (option (list dict)) :=
  let url := BASE_URL ++ "/" ++ username ++ "/events" in
  answer <~ urlopen_json url ;;
  match answer with
  | Events events => ret (Some events)
  | Fails e =>
      if isinstance e CHTTPError then
        (if (code e =? 404)%Z then
           _print_error ("User '" ++ username ++ "' not found")
         else if (code e =? 403)%Z then
           _print_error "API rate limit exceeded. Please try again later."
         else
           _print_error ("GitHub API error: " ++ str_of_int (code e) ++ " - " ++ reason e))
        ;;; ret None
      else if isinstance e CURLError then
        _print_error ("Network error: " ++ reason e) ;;; ret None
      else if isinstance e CJSONDecodeError then
        _print_error ("Invalid response from GitHub API: " ++ str_exn e) ;;; ret None
      else if isinstance e CException then
        _print_error ("Unexpected error: " ++ str_exn e) ;;; ret None
      else raise e
  end.

(** The [for] loop of [display_activity]; it returns [displayed_count]. *)
Fixpoint display_loop (max_events : Z) (events : list dict) (displayed_count : Z)
  : M Z :=
  match events with
  | [] => ret displayed_count
  | event :: rest =>
      if (displayed_count >=? max_events)%Z then ret displayed_count   (* break *)
      else
        formatted_event <~ lift (format_event event) ;;
        match formatted_event with
        | Some line =>
            if truthy (VStr line) then
              print ("• " ++ line) ;;;
              display_loop max_events rest (displayed_count + 1)
            else display_loop max_events rest displayed_count
        | None => display_loop max_events rest displayed_count
        end
  end.

(** Fetch and display recent GitHub activity. *)
Definition display_activity (username : string) (max_events : Z) : M unit :=
  print ("🔍 Fetching recent activity for '" ++ username ++ "'...") ;;;
  events <~ fetch_activity username ;;
  match events with
  | None | Some [] =>
      print ("📭 No recent activity found for '" ++ username ++ "'")
  | Some events =>
      print (nl ++ "📊 Recent activity for " ++ username ++ ":" ++ nl) ;;;
      displayed_count <~ display_loop max_events events 0 ;;
      if (displayed_count =? 0)%Z then
        print "No supported event types found in recent activity."
      else
        print (nl ++ "📈 Displaying " ++ str_of_int displayed_count
                  ++ " most recent events.")
  end.

End GitHubActivityFetcher.

(* ===================================================================== *)
(** * The command line                                                    *)
(* ===================================================================== *)

Import Py IO.

Definition usage : string :=
"
GitHub Activity CLI
Usage: github-activity <username> [max_events]

Arguments:
    username    GitHub username to fetch activity for
    max_events  Maximum number of events to display (default: 10)

Examples:
    github-activity kamranahmedse
    github-activity torvalds 5
    github-activity microsoft 20
        ".

(** Print usage instructions. *)
Definition print_usage : M unit := print usage.

Definition is_help (arg : string) : bool :=
  String.eqb arg "-h" || String.eqb arg "--help".

(** Main entry point for the CLI; [argv] is [sys.argv]. *)
Definition main (argv : list string) : M unit :=
  match argv with
  | [] | [_] => print_usage ;;; sys_exit 0
  | _ :: username :: optional =>
      if is_help username then print_usage ;;; sys_exit 0
      else
        (* Parse optional max_events parameter *)
        max_events <~
          match optional with
          | [] => ret 10%Z
          | arg :: _ =>
              match Py.int arg with
              | Some n =>
                  if (n <=? 0)%Z then
                    eprint "❌ Error: max_events must be a positive integer" ;;;
                    sys_exit 1
                  else ret n
              | None =>
                  eprint "❌ Error: max_events must be a positive integer" ;;;
                  sys_exit 1
              end
          end ;;
        (* Validate username *)
        if String.eqb (strip username) "" then
          eprint "❌ Error: Username cannot be empty" ;;; sys_exit 1
        else GitHubActivityFetcher.display_activity username max_events
  end.

(** A run of the script from a fresh process. *)
Definition run (argv : list string) (net : string -> response)
  : result unit * world :=
  main argv (start net).

(* ===================================================================== *)
(** * The vocabulary of the specification                                 *)
(* ===================================================================== *)

Module Spec.
Import GitHubActivityFetcher.

(** An event record is of a known type when its [type] tag is one of the
    names of the template table. *)
Definition known_type (t : string) : bool :=
  match lookup t EVENT_MESSAGES with Some _ => true | None => false end.

Definition recognized (event : dict) : bool :=
  match get event "type" with
  | VStr t => known_type t
  | _ => false
  end.

(** The formatter returns on [event] (a line or [None]) instead of raising. *)
Definition formats (event : dict) : Prop :=
  exists formatted : option string, format_event event = Ok formatted.

(** The lines of the events of a feed that have one, in feed order. *)
Definition line_of (event : dict) : list string :=
  match format_event event with
  | Ok (Some line) => [line]
  | _ => []
  end.

Definition lines_of (events : list dict) : list string :=
  flat_map line_of events.

Definition bullet (line : string) : string := "• " ++ line.

(** The event lines among what was printed: the entries that open with the
    bullet. *)
Definition event_lines (printed : list string) : list string :=
  filter (String.prefix "• ") printed.

(** [w] after some more entries on standard output. *)
Definition printed (w : world) (entries : list string) : world :=
  mk_world (network w) (stdout w ++ entries) (stderr w) (requests w).

Definition fetching (username : string) : string :=
  "🔍 Fetching recent activity for '" ++ username ++ "'...".

Definition header (username : string) : string :=
  nl ++ "📊 Recent activity for " ++ username ++ ":" ++ nl.

Definition no_activity (username : string) : string :=
  "📭 No recent activity found for '" ++ username ++ "'".

Definition no_supported : string :=
  "No supported event types found in recent activity.".

Definition summary (count : Z) : string :=
  nl ++ "📈 Displaying " ++ str_of_int count ++ " most recent events.".

Definition feed_url (username : string) : string :=
  "https://api.github.com/users/" ++ username ++ "/events".

(** ** The template table of the specification (section 4.2)

    One row per known type: literal text and dotted field paths. *)
Inductive part : Type :=
| Text (text : string)
| Path (path : list string).

Definition spec_templates : list (string * list part) :=
  [ ("PushEvent",
      [Text "Pushed "; Path ["payload"; "commits"]; Text " commits to ";
       Path ["repo"; "name"]]);
    ("IssuesEvent",
      [Path ["payload"; "action"]; Text " an issue in "; Path ["repo"; "name"]]);
    ("IssueCommentEvent",
      [Text "Commented on an issue in "; Path ["repo"; "name"]]);
    ("WatchEvent", [Text "Starred "; Path ["repo"; "name"]]);
    ("ForkEvent", [Text "Forked "; Path ["repo"; "name"]]);
    ("CreateEvent",
      [Text "Created "; Path ["payload"; "ref_type"]; Text " in ";
       Path ["repo"; "name"]]);
    ("DeleteEvent",
      [Text "Deleted "; Path ["payload"; "ref_type"]; Text " in ";
       Path ["repo"; "name"]]);
    ("PullRequestEvent",
      [Path ["payload"; "action"]; Text " a pull request in ";
       Path ["repo"; "name"]]);
    ("ReleaseEvent",
      [Text "Released "; Path ["payload"; "release"; "tag_name"]; Text " in ";
       Path ["repo"; "name"]]);
    ("PublicEvent", [Text "Made "; Path ["repo"; "name"]; Text " public"]);
    ("MemberEvent",
      [Path ["payload"; "action"]; Text " a collaborator to ";
       Path ["repo"; "name"]]) ].

(** The value at a dotted path of a record, when every step is there. *)
Fixpoint path_value (obj : value) (path : list string) : option value :=
  match path with
  | [] => Some obj
  | key :: rest =>
      match obj with
      | VDict d =>
          match dict_get key d with
          | Some v => path_value v rest
          | None => None
          end
      | _ => None
      end
  end.

(** A row with the values of the record substituted, when every path of the
    row is present. *)
Fixpoint spec_line (parts : list part) (event : dict) : option string :=
  match parts with
  | [] => Some ""
  | Text text :: rest => option_map (append text) (spec_line rest event)
  | Path path :: rest =>
      match path_value (VDict event) path, spec_line rest event with
      | Some v, Some tail => Some (str v ++ tail)
      | _, _ => None
      end
  end.

(** The optional timestamp prefix of a line. *)
Definition timestamp_prefix (event : dict) : result string :=
  let created_at := get event "created_at" in
  if truthy created_at then
    timestamp <- _format_timestamp created_at ;; Ok (timestamp ++ " - ")
  else Ok "".

(** The generic line of an event whose template cannot be filled. *)
Definition fallback_line (t : string) (event : dict) : string :=
  match path_value (VDict event) ["repo"; "name"] with
  | Some name => t ++ " in " ++ str name
  | None => t ++ " in unknown"
  end.

(** ** The display format of a timestamp: [YYYY-MM-DD HH:MM] *)




Definition no_Z (s : string) : bool := negb (char_in "Z" s).

(** ** Messages and worlds *)

Definition error_line (message : string) : string := "❌ Error: " ++ message.

Definition after_fetch (w : world) (username : string) : world :=
  mk_world (network w) (stdout w ++ [fetching username]) (stderr w)
           (requests w ++ [feed_url username]).

Definition http_message (username : string) (status : Z) (phrase : string) : string :=
  if (status =? 404)%Z then "User '" ++ username ++ "' not found"
  else if (status =? 403)%Z then "API rate limit exceeded. Please try again later."
  else "GitHub API error: " ++ str_of_int status ++ " - " ++ phrase.

Definition closing (shown : list string) : string :=
  match shown with
  | [] => no_supported
  | _ => summary (Z.of_nat (length shown))
  end.

(** The display count an invocation asks for: 10 when the argument is left
    out, the argument when it reads as a positive integer, and none when it
    does not. *)
Definition requested_count (optional : list string) : option Z :=
  match optional with
  | [] => Some 10%Z
  | arg :: _ =>
      match Py.int arg with
      | Some n => if (0 <? n)%Z then Some n else None
      | None => None
      end
  end.

Definition blank (username : string) : bool := String.eqb (strip username) "".

Definition max_events_message : string := "max_events must be a positive integer".
Definition username_message : string := "Username cannot be empty".

(** A template of the table is in the modelled fragment of the format
    language and has literal text. *)
Definition is_lit (p : piece) : bool :=
  match p with Lit _ => true | Field _ _ => false end.

Definition template_ok (entry : string * string) : bool :=
  match parse_template (snd entry) with
  | Some pieces => existsb is_lit pieces
  | None => false
  end.

(** ** The rows of the specification, read as format pieces *)

Definition pieces_of_part (p : part) : list piece :=
  match p with
  | Text text => map Lit (list_ascii_of_string text)
  | Path [] => []
  | Path (name :: keys) => [Field name keys]
  end.

Definition pieces_of (parts : list part) : list piece :=
  flat_map pieces_of_part parts.

Definition named (p : part) : bool :=
  match p with Path [] => false | _ => true end.

(** The record carries [created_at] as the data model has it: not at all, or
    as a string. *)
Definition created_at_in_model (event : dict) : Prop :=
  dict_get "created_at" event = None
  \/ exists s : string, dict_get "created_at" event = Some (VStr s).

(** ** Sample records *)

Definition repo_hello : value := VDict [("name", VStr "octocat/Hello-World")].

Definition push_event : dict :=
  [ ("type", VStr "PushEvent"); ("repo", repo_hello);
    ("payload", VDict [("commits", VInt 3)]);
    ("created_at", VStr "2024-01-15T10:30:00Z") ].

(** A push whose payload has no [commits]. *)
Definition push_without_commits : dict :=
  [ ("type", VStr "PushEvent"); ("repo", repo_hello);
    ("payload", VDict [("ref", VStr "refs/heads/main")]);
    ("created_at", VStr "2024-01-15T10:30:00Z") ].

(** A release whose [release] is a tag name instead of an object. *)
Definition release_as_text : dict :=
  [ ("type", VStr "ReleaseEvent"); ("repo", repo_hello);
    ("payload", VDict [("action", VStr "published"); ("release", VStr "v1.0.0")]);
    ("created_at", VStr "2024-01-15T09:00:00Z") ].

(** A release whose [release] is null. *)
Definition release_null : dict :=
  [ ("type", VStr "ReleaseEvent"); ("repo", repo_hello);
    ("payload", VDict [("action", VStr "published"); ("release", VNone)]);
    ("created_at", VStr "2024-01-15T09:00:00Z") ].

(** A push with neither payload nor a repository object. *)
Definition push_repo_null : dict :=
  [ ("type", VStr "PushEvent"); ("repo", VNone) ].

Definition watch_event : dict :=
  [ ("type", VStr "WatchEvent"); ("repo", repo_hello);
    ("payload", VDict [("action", VStr "started")]);
    ("created_at", VStr "2024-01-15T08:00:00Z") ].

Definition sample_feed : list dict := [push_event; release_null; watch_event].

(** ** Records of the shape the feed gives them *)

Definition object_or_absent (field : option value) : bool :=
  match field with
  | None | Some (VDict _) => true
  | Some _ => false
  end.

(** Every container the templates and the generic line reach into is an
    object where it is present, the type tag can be hashed, and
    [created_at] is a string, null or absent. *)
Definition well_shaped (event : dict) : bool :=
  hashable (get event "type")
  && object_or_absent (dict_get "repo" event)
  && object_or_absent (dict_get "payload" event)
  && match dict_get "payload" event with
     | Some (VDict payload) => object_or_absent (dict_get "release" payload)
     | _ => true
     end
  && match dict_get "created_at" event with
     | None | Some VNone | Some (VStr _) => true
     | Some _ => false
     end.

(** The four keys of a record the formatter reads. *)
Definition keys_read : list string := ["type"; "repo"; "payload"; "created_at"].

Definition same_on_keys_read (a b : dict) : Prop :=
  forall key : string, In key keys_read -> dict_get key a = dict_get key b.

Definition field_name (p : piece) : list string :=
  match p with
  | Lit _ => []
  | Field name _ => [name]
  end.

(** The names the templates of the table look up in the record. *)
Definition template_names : list string :=
  flat_map (fun entry =>
              match parse_template (snd entry) with
              | Some pieces => flat_map field_name pieces
              | None => []
              end) EVENT_MESSAGES.

(** The line of an event that has one. *)
Definition the_line (event : dict) : string :=
  match format_event event with
  | Ok (Some line) => line
  | _ => ""
  end.

(** A feed of records of unknown types. *)
Definition unsupported (event : dict) : bool :=
  hashable (get event "type") && negb (recognized event).

End Spec.

(* ===================================================================== *)
(** * Theorems                                                            *)
(* ===================================================================== *)

Import GitHubActivityFetcher Spec.

(** ** Strings *)

Lemma append_empty_inv (a b : string) : a ++ b = "" -> a = "" /\ b = "".
Proof. destruct a; simpl; [auto | discriminate]. Qed.

Lemma append_assoc (a b c : string) : (a ++ b) ++ c = a ++ (b ++ c).
Proof. induction a as [|x a IH]; simpl; [reflexivity | now rewrite IH]. Qed.

Lemma truthy_str (s : string) : s <> "" -> truthy (VStr s) = true.
Proof.
  intros H. simpl. destruct (String.eqb_spec s ""); [contradiction | reflexivity].
Qed.

Lemma eqb_empty_false (s : string) : s <> "" -> String.eqb s "" = false.
Proof. intros H. destruct (String.eqb_spec s ""); [contradiction | reflexivity]. Qed.

(** ** Rendering *)


Lemma render_nonempty (pieces : list piece) (kwargs : dict) (out : string) :
  existsb is_lit pieces = true -> render pieces kwargs = Ok out -> out <> "".
Proof.
  revert out. induction pieces as [|p rest IH]; intros out Hlit Hr.
  - discriminate.
  - destruct p as [c | name keys]; simpl in Hr.
    + destruct (render rest kwargs); simpl in Hr; inversion Hr. discriminate.
    + simpl in Hlit.
      destruct (get_field kwargs name keys); simpl in Hr; [|discriminate].
      destruct (render rest kwargs) as [tail|] eqn:Ht; simpl in Hr; inversion Hr.
      intros Habs. apply append_empty_inv in Habs as [_ Habs].
      exact (IH tail Hlit eq_refl Habs).
Qed.

Lemma lookup_In (t tpl : string) (table : list (string * string)) :
  lookup t table = Some tpl -> In (t, tpl) table.
Proof.
  induction table as [|[k v] rest IH]; simpl; [discriminate|].
  destruct (String.eqb_spec k t); intros H.
  - inversion H; subst. now left.
  - right. auto.
Qed.

#[local] Arguments lookup : simpl never.
#[local] Arguments String.eqb : simpl never.
#[local] Arguments format : simpl never.


Lemma templates_ok : forallb template_ok EVENT_MESSAGES = true.
Proof. vm_compute. reflexivity. Qed.

Lemma format_nonempty (t tpl : string) (kwargs : dict) (out : string) :
  lookup t EVENT_MESSAGES = Some tpl -> format tpl kwargs = Ok out -> out <> "".
Proof.
  intros Hl Hf. apply lookup_In in Hl.
  pose proof templates_ok as Hall. rewrite forallb_forall in Hall.
  specialize (Hall _ Hl). unfold template_ok in Hall. simpl in Hall.
  unfold format in Hf. destruct (parse_template tpl) as [pieces|]; [|discriminate].
  eapply render_nonempty; eauto.
Qed.

(** ** The formatter, case by case *)

Lemma format_event_unknown (event : dict) :
  hashable (get event "type") = true -> recognized event = false ->
  format_event event = Ok None.
Proof.
  unfold recognized, format_event, known_type, contains.
  destruct (get event "type"); simpl; intros Hh Hr;
    try discriminate; try reflexivity.
  destruct (lookup s EVENT_MESSAGES); [discriminate Hr | reflexivity].
Qed.

(** What the formatter does for a known type, written with the outcome of
    filling the template. *)
Lemma format_event_known (event : dict) (t tpl : string) :
  get event "type" = VStr t -> lookup t EVENT_MESSAGES = Some tpl ->
  format_event event =
    match format tpl event with
    | Ok message =>
        match timestamp_prefix event with
        | Ok pre => Ok (Some (pre ++ message))
        | Raise e =>
            if isinstance e CKeyError then
              name <- get_default
                        (match dict_get "repo" event with
                         | Some v => v
                         | None => VDict []
                         end) "name" (VStr "unknown") ;;
              Ok (Some (t ++ " in " ++ str name))
            else Raise e
        end
    | Raise e =>
        if isinstance e CKeyError then
          name <- get_default
                    (match dict_get "repo" event with
                     | Some v => v
                     | None => VDict []
                     end) "name" (VStr "unknown") ;;
          Ok (Some (t ++ " in " ++ str name))
        else Raise e
    end.
Proof.
  intros Ht Hl. unfold format_event, timestamp_prefix. rewrite Ht. simpl. rewrite Hl. simpl.
  destruct (format tpl event) as [message|e]; simpl; [|reflexivity].
  destruct (truthy (get event "created_at")); simpl.
  - destruct (_format_timestamp (get event "created_at")) as [ts|e]; simpl.
    + f_equal. f_equal. now rewrite append_assoc.
    + reflexivity.
  - reflexivity.
Qed.

Lemma format_event_line_nonempty (event : dict) (line : string) :
  format_event event = Ok (Some line) -> line <> "".
Proof.
  unfold format_event.
  destruct (get event "type") as [| | | |t| |] eqn:Ht; simpl; try discriminate.
  destruct (lookup t EVENT_MESSAGES) as [tpl|] eqn:Hl; simpl; [|discriminate].
  assert (Hfb : forall r : result value,
             (name <- r ;; Ok (Some (t ++ " in " ++ str name))) = Ok (Some line) ->
             line <> "").
  { intros [name|e]; simpl; intros H; inversion H.
    intros Habs. apply append_empty_inv in Habs as [_ Habs]. discriminate. }
  destruct (format tpl event) as [message|e] eqn:Hf; simpl.
  - pose proof (format_nonempty _ _ _ _ Hl Hf) as Hne.
    destruct (truthy (get event "created_at")); simpl.
    + destruct (_format_timestamp (get event "created_at")) as [ts|e]; simpl.
      * intros H; inversion H. intros Habs.
        apply append_empty_inv in Habs as [_ Habs]. discriminate.
      * destruct (isinstance e CKeyError); [apply Hfb | discriminate].
    + intros H; inversion H; subst. exact Hne.
  - destruct (isinstance e CKeyError); [apply Hfb | discriminate].
Qed.

(** ** The display loop *)

Lemma printed_nil (w : world) : printed w [] = w.
Proof. destruct w; unfold printed; simpl. now rewrite app_nil_r. Qed.

Lemma printed_printed (w : world) (a b : list string) :
  printed (printed w a) b = printed w (a ++ b).
Proof. unfold printed; simpl. now rewrite app_assoc. Qed.

Lemma display_loop_break (max_events c : Z) (events : list dict) (w : world) :
  (max_events <= c)%Z -> display_loop max_events events c w = (Ok c, w).
Proof.
  intros H. destruct events as [|e rest]; simpl; [reflexivity|].
  destruct (Z.geb_spec c max_events); [reflexivity | lia].
Qed.

(** One turn of the loop on an event the formatter returns on. *)
Lemma display_loop_step (max_events c : Z) (e : dict) (rest : list dict)
      (w : world) (formatted : option string) :
  (c < max_events)%Z -> format_event e = Ok formatted ->
  display_loop max_events (e :: rest) c w =
    match formatted with
    | Some line => display_loop max_events rest (c + 1) (printed w [bullet line])
    | None => display_loop max_events rest c w
    end.
Proof.
  intros Hc Hf. simpl.
  destruct (Z.geb_spec c max_events); [lia|].
  unfold bindM, lift at 1. rewrite Hf.
  destruct formatted as [line|]; [|reflexivity].
  rewrite (eqb_empty_false line (format_event_line_nonempty _ _ Hf)).
  reflexivity.
Qed.

Lemma display_loop_raise (max_events c : Z) (e : dict) (rest : list dict)
      (w : world) (x : exn) :
  (c < max_events)%Z -> format_event e = Raise x ->
  display_loop max_events (e :: rest) c w = (Raise x, w).
Proof.
  intros Hc Hf. simpl.
  destruct (Z.geb_spec c max_events); [lia|].
  unfold bindM, lift at 1. now rewrite Hf.
Qed.

Lemma lines_of_cons (e : dict) (rest : list dict) :
  lines_of (e :: rest) = (line_of e ++ lines_of rest)%list.
Proof. reflexivity. Qed.

(** On a feed the formatter returns on, the loop prints the first
    [max_events - c] lines of the feed and counts them. *)
Lemma display_loop_spec (max_events : Z) (events : list dict) :
  Forall formats events ->
  forall (c : Z) (w : world),
    let shown := firstn (Z.to_nat (max_events - c)) (lines_of events) in
    display_loop max_events events c w
    = (Ok (c + Z.of_nat (length shown))%Z, printed w (map bullet shown)).
Proof.
  induction 1 as [|e rest [formatted Hf] Hrest IH]; intros c w shown.
  - subst shown. unfold lines_of. simpl. rewrite firstn_nil. simpl.
    now rewrite Z.add_0_r, printed_nil.
  - destruct (Z.lt_ge_cases c max_events) as [Hlt | Hge].
    + rewrite (display_loop_step _ _ _ _ _ _ Hlt Hf).
      subst shown. rewrite lines_of_cons. unfold line_of. rewrite Hf.
      destruct formatted as [line|].
      * rewrite IH.
        replace (Z.to_nat (max_events - c))
          with (S (Z.to_nat (max_events - (c + 1)))) by lia.
        cbn [app firstn map length]. rewrite printed_printed, Nat2Z.inj_succ.
        cbn [app]. f_equal. f_equal. lia.
      * apply IH.
    + rewrite display_loop_break by lia.
      subst shown. replace (Z.to_nat (max_events - c)) with 0%nat by lia.
      simpl. now rewrite Z.add_0_r, printed_nil.
Qed.

(** Whatever the feed, the loop only adds event lines, at most
    [max_events - c] of them, and writes nowhere else. *)
Lemma display_loop_bound (max_events : Z) (events : list dict) :
  forall (c : Z) (w : world),
  exists shown : list string,
    snd (display_loop max_events events c w) = printed w (map bullet shown)
    /\ (length shown <= Z.to_nat (max_events - c))%nat.
Proof.
  induction events as [|e rest IH]; intros c w.
  - exists []. simpl. rewrite printed_nil. split; [reflexivity | lia].
  - destruct (Z.lt_ge_cases c max_events) as [Hlt | Hge].
    + destruct (format_event e) as [[line|]|x] eqn:Hf.
      * rewrite (display_loop_step _ _ _ _ _ _ Hlt Hf).
        destruct (IH (c + 1)%Z (printed w [bullet line])) as [shown [Hs Hl]].
        exists (line :: shown). rewrite Hs, printed_printed. simpl.
        split; [reflexivity | lia].
      * rewrite (display_loop_step _ _ _ _ _ _ Hlt Hf).
        destruct (IH c w) as [shown [Hs Hl]]. exists shown. split; [exact Hs | lia].
      * rewrite (display_loop_raise _ _ _ _ _ _ Hlt Hf).
        exists []. simpl. rewrite printed_nil. split; [reflexivity | lia].
    + rewrite display_loop_break by lia.
      exists []. simpl. rewrite printed_nil. split; [reflexivity | lia].
Qed.


(** ** Fetching *)

Lemma url_eq (username : string) :
  BASE_URL ++ "/" ++ username ++ "/events" = feed_url username.
Proof. reflexivity. Qed.

Lemma fetch_activity_events (username : string) (events : list dict) (w : world) :
  network w (feed_url username) = Events events ->
  fetch_activity username w
  = (Ok (Some events),
     mk_world (network w) (stdout w) (stderr w) (requests w ++ [feed_url username])).
Proof.
  intros Hnet. unfold fetch_activity, bindM, urlopen_json. rewrite url_eq.
  cbn [network]. now rewrite Hnet.
Qed.

Lemma fetch_activity_http (username : string) (status : Z) (phrase : string)
      (w : world) :
  network w (feed_url username) = Fails (HTTPError status phrase) ->
  fetch_activity username w
  = (Raise (SystemExit 1),
     mk_world (network w) (stdout w)
              (stderr w ++ [error_line (http_message username status phrase)])
              (requests w ++ [feed_url username])).
Proof.
  intros Hnet. unfold fetch_activity, bindM, urlopen_json. rewrite url_eq.
  cbn [network]. rewrite Hnet. cbn [isinstance code reason].
  unfold http_message.
  destruct (status =? 404)%Z; [reflexivity|].
  destruct (status =? 403)%Z; reflexivity.
Qed.

(** A fetch either hands over the feed or ends by raising: no handler falls
    through. *)
Lemma fetch_activity_fails (username : string) (e : exn) (w : world) :
  network w (feed_url username) = Fails e ->
  exists (x : exn) (w' : world),
    fetch_activity username w = (Raise x, w') /\ stdout w' = stdout w
    /\ requests w' = (requests w ++ [feed_url username])%list.
Proof.
  intros Hnet. unfold fetch_activity, bindM, urlopen_json. rewrite url_eq.
  cbn [network]. rewrite Hnet.
  destruct e as [k|m|m|m|m|st ph|r|m|st]; cbn [isinstance code];
    try (eexists; eexists; split; [reflexivity | split; reflexivity]).
  destruct (st =? 404)%Z; [|destruct (st =? 403)%Z];
    (eexists; eexists; split; [reflexivity | split; reflexivity]).
Qed.

(** ** Displaying *)

Lemma display_activity_empty (username : string) (max_events : Z) (w : world) :
  network w (feed_url username) = Events [] ->
  display_activity username max_events w
  = (Ok tt, printed (after_fetch w username) [no_activity username]).
Proof.
  intros Hnet. unfold display_activity, bindM at 1, print at 1.
  unfold bindM at 1. rewrite fetch_activity_events with (events := []) by exact Hnet.
  reflexivity.
Qed.

Lemma display_activity_loop (username : string) (max_events : Z)
      (e : dict) (rest : list dict) (w : world) :
  network w (feed_url username) = Events (e :: rest) ->
  display_activity username max_events w
  = match display_loop max_events (e :: rest) 0
            (printed (after_fetch w username) [header username]) with
    | (Ok count, w') =>
        (Ok tt, printed w' [if (count =? 0)%Z then no_supported else summary count])
    | (Raise x, w') => (Raise x, w')
    end.
Proof.
  intros Hnet. unfold display_activity, bindM at 1, print at 1.
  unfold bindM at 1. rewrite fetch_activity_events with (events := e :: rest) by exact Hnet.
  unfold bindM at 1, print at 1. unfold bindM at 1.
  unfold printed, after_fetch, header, fetching. cbn [network stdout stderr requests].
  rewrite <- !app_assoc. cbn [app].
  match goal with |- context [display_loop ?m ?l ?c ?w0] =>
    destruct (display_loop m l c w0) as [[count|x] w'] end; [|reflexivity].
  destruct (count =? 0)%Z; reflexivity.
Qed.

(** The display on a feed the formatter returns on: the header, the first
    [max_events] lines of the feed, and the closing line. *)
Lemma display_activity_spec (username : string) (max_events : Z)
      (events : list dict) (w : world) :
  network w (feed_url username) = Events events -> events <> [] ->
  Forall formats events ->
  let shown := firstn (Z.to_nat max_events) (lines_of events) in
  display_activity username max_events w
  = (Ok tt,
     printed (after_fetch w username)
             ([header username] ++ map bullet shown ++ [closing shown])).
Proof.
  intros Hnet Hne Hall shown. destruct events as [|e rest]; [contradiction|].
  rewrite (display_activity_loop _ _ _ _ _ Hnet).
  rewrite (display_loop_spec max_events (e :: rest) Hall).
  rewrite Z.sub_0_r. fold shown. rewrite !printed_printed. f_equal. f_equal.
  f_equal. f_equal. f_equal. unfold closing.
  destruct shown as [|l ls]; [reflexivity|].
  rewrite Z.add_0_l.
  destruct (Z.eqb_spec (Z.of_nat (length (l :: ls))) 0) as [H0|]; [|reflexivity].
  simpl in H0. lia.
Qed.


(** ** The command line *)

Lemma blank_not_help (username : string) :
  blank username = true -> is_help username = false.
Proof.
  unfold blank, is_help. intros Hb.
  destruct (String.eqb_spec username "-h") as [->|_]; [discriminate Hb|].
  destruct (String.eqb_spec username "--help") as [->|_]; [discriminate Hb|].
  reflexivity.
Qed.

Lemma main_display (prog username : string) (optional : list string)
      (max_events : Z) (net : string -> response) :
  is_help username = false -> blank username = false ->
  requested_count optional = Some max_events ->
  run (prog :: username :: optional) net
  = display_activity username max_events (start net).
Proof.
  unfold run, main, blank, requested_count. intros Hh Hb Hc. rewrite Hh.
  destruct optional as [|arg more].
  - inversion Hc; subst. unfold bindM at 1, ret at 1. now rewrite Hb.
  - destruct (Py.int arg) as [n|]; [|discriminate Hc].
    destruct (Z.ltb_spec 0 n); [|discriminate Hc]. inversion Hc; subst.
    destruct (Z.leb_spec max_events 0); [lia|].
    unfold bindM at 1, ret at 1. now rewrite Hb.
Qed.

Lemma main_bad_count (prog username : string) (optional : list string)
      (net : string -> response) :
  is_help username = false -> requested_count optional = None ->
  run (prog :: username :: optional) net
  = (Raise (SystemExit 1), mk_world net [] [error_line max_events_message] []).
Proof.
  unfold run, main, requested_count. intros Hh Hc. rewrite Hh.
  destruct optional as [|arg more]; [discriminate Hc|].
  destruct (Py.int arg) as [n|]; [|reflexivity].
  destruct (Z.ltb_spec 0 n); [discriminate Hc|].
  destruct (Z.leb_spec n 0); [reflexivity | lia].
Qed.

Lemma main_blank_username (prog username : string) (optional : list string)
      (max_events : Z) (net : string -> response) :
  blank username = true -> requested_count optional = Some max_events ->
  run (prog :: username :: optional) net
  = (Raise (SystemExit 1), mk_world net [] [error_line username_message] []).
Proof.
  intros Hb Hc. pose proof (blank_not_help _ Hb) as Hh.
  unfold run, main, blank, requested_count in *. rewrite Hh.
  destruct optional as [|arg more].
  - unfold bindM at 1, ret at 1. now rewrite Hb.
  - destruct (Py.int arg) as [n|]; [|discriminate Hc].
    destruct (Z.ltb_spec 0 n); [|discriminate Hc].
    destruct (Z.leb_spec n 0); [lia|].
    unfold bindM at 1, ret at 1. now rewrite Hb.
Qed.

Lemma display_activity_fails (username : string) (max_events : Z) (e : exn)
      (w : world) :
  network w (feed_url username) = Fails e ->
  exists (x : exn) (w' : world),
    display_activity username max_events w = (Raise x, w')
    /\ stdout w' = (stdout w ++ [fetching username])%list.
Proof.
  intros Hnet. unfold display_activity, bindM at 1, print at 1. unfold bindM at 1.
  match goal with |- context [fetch_activity username ?w0] =>
    destruct (fetch_activity_fails username e w0 Hnet) as [x [w' [Hfa [Hout _]]]];
    rewrite Hfa end.
  exists x, w'. split; [reflexivity | exact Hout].
Qed.

(** ** Event lines on standard output *)

Lemma event_lines_app (a b : list string) :
  event_lines (a ++ b) = (event_lines a ++ event_lines b)%list.
Proof. apply filter_app. Qed.

Lemma event_lines_bullets (shown : list string) :
  event_lines (map bullet shown) = map bullet shown.
Proof.
  induction shown as [|l ls IH]; [reflexivity|].
  unfold event_lines in *. cbn [map filter]. rewrite IH.
  unfold bullet at 1. simpl. now destruct l.
Qed.

Lemma event_lines_other (username : string) (count : Z) :
  event_lines [fetching username] = [] /\ event_lines [header username] = []
  /\ event_lines [no_activity username] = [] /\ event_lines [no_supported] = []
  /\ event_lines [summary count] = [].
Proof. repeat split; reflexivity. Qed.

(** Whatever the remote side answers, a display adds at most [max_events]
    event lines to standard output. *)
Lemma display_activity_event_lines (username : string) (max_events : Z) (w : world) :
  exists shown : list string,
    event_lines (stdout (snd (display_activity username max_events w)))
    = (event_lines (stdout w) ++ map bullet shown)%list
    /\ (length shown <= Z.to_nat max_events)%nat.
Proof.
  assert (Hother := event_lines_other username).
  destruct (Hother 0%Z) as [Hf [Hh [Hn [Hns _]]]].
  destruct (network w (feed_url username)) as [[|e rest]|x] eqn:Hnet.
  - rewrite (display_activity_empty _ _ _ Hnet). exists [].
    cbn [snd printed after_fetch stdout map]. rewrite !event_lines_app, Hf, Hn.
    split; [now rewrite !app_nil_r | simpl; lia].
  - rewrite (display_activity_loop _ _ _ _ _ Hnet).
    destruct (display_loop_bound max_events (e :: rest) 0
                (printed (after_fetch w username) [header username]))
      as [shown [Hs Hl]].
    rewrite Z.sub_0_r in Hl. exists shown. split; [|exact Hl].
    destruct (display_loop max_events (e :: rest) 0
                (printed (after_fetch w username) [header username]))
      as [[count|y] w'] eqn:Hloop; cbn [snd] in *; subst w'.
    + destruct (Hother count) as [_ [_ [_ [_ Hc]]]].
      cbn [printed after_fetch stdout].
      rewrite !event_lines_app, event_lines_bullets, Hf, Hh.
      destruct (count =? 0)%Z; [rewrite Hns | rewrite Hc]; now rewrite !app_nil_r.
    + cbn [printed after_fetch stdout].
      rewrite !event_lines_app, event_lines_bullets, Hf, Hh.
      now rewrite !app_nil_r.
  - destruct (display_activity_fails username max_events x w Hnet)
      as [y [w' [Hda Hout]]].
    rewrite Hda. exists []. cbn [snd map]. rewrite Hout, event_lines_app, Hf.
    split; [reflexivity | simpl; lia].
Qed.


(** ** Counting the supported events *)

Lemma format_event_recognized (event : dict) (formatted : option string) :
  format_event event = Ok formatted ->
  recognized event = match formatted with Some _ => true | None => false end.
Proof.
  unfold recognized, known_type. intros Hf.
  destruct (get event "type") as [| | | |t| |] eqn:Ht;
    try (unfold format_event in Hf; rewrite Ht in Hf; simpl in Hf;
         inversion Hf; reflexivity);
    try (unfold format_event in Hf; rewrite Ht in Hf; discriminate Hf).
  destruct (lookup t EVENT_MESSAGES) as [template|] eqn:Hl.
  - rewrite (format_event_known _ _ _ Ht Hl) in Hf.
    assert (Hfb : forall r : result value,
               (name <- r ;; Ok (Some (t ++ " in " ++ str name))) = Ok formatted ->
               true = match formatted with Some _ => true | None => false end).
    { intros [name|x]; simpl; intros H; inversion H; reflexivity. }
    destruct (format template event) as [message|e].
    + destruct (timestamp_prefix event) as [pre|e].
      * inversion Hf; reflexivity.
      * destruct (isinstance e CKeyError); [exact (Hfb _ Hf) | discriminate Hf].
    + destruct (isinstance e CKeyError); [exact (Hfb _ Hf) | discriminate Hf].
  - unfold format_event in Hf. rewrite Ht in Hf. cbn [contains] in Hf.
    rewrite Hl in Hf. inversion Hf; reflexivity.
Qed.

Lemma lines_of_length (events : list dict) :
  Forall formats events ->
  length (lines_of events) = length (filter recognized events).
Proof.
  induction 1 as [|e rest [formatted Hf] _ IH]; [reflexivity|].
  rewrite lines_of_cons, length_app, IH. cbn [filter].
  rewrite (format_event_recognized _ _ Hf). unfold line_of. rewrite Hf.
  now destruct formatted.
Qed.

(** The number of event lines of a display on a feed the formatter returns
    on: the smaller of [max_events] and the number of supported events. *)
Lemma shown_length (max_events : Z) (events : list dict) :
  Forall formats events ->
  length (firstn (Z.to_nat max_events) (lines_of events))
  = Nat.min (Z.to_nat max_events) (length (filter recognized events)).
Proof. intros H. now rewrite length_firstn, lines_of_length. Qed.

(** ** Templates and rows *)

Lemma getitems_path (keys : list string) (obj v : value) :
  getitems obj keys = Ok v <-> path_value obj keys = Some v.
Proof.
  revert obj. induction keys as [|key rest IH]; intros obj; simpl.
  - split; intros H; inversion H; reflexivity.
  - destruct obj; simpl; try (split; discriminate).
    destruct (dict_get key d) as [x|]; simpl; [apply IH | split; discriminate].
Qed.

Lemma get_field_path (event : dict) (name : string) (keys : list string) (v : value) :
  get_field event name keys = Ok v
  <-> path_value (VDict event) (name :: keys) = Some v.
Proof.
  unfold get_field. simpl.
  destruct (dict_get name event); [apply getitems_path | split; discriminate].
Qed.

Lemma render_app (a b : list piece) (kwargs : dict) :
  render (a ++ b) kwargs
  = (x <- render a kwargs ;; y <- render b kwargs ;; Ok (x ++ y)).
Proof.
  induction a as [|p a IH]; simpl.
  - now destruct (render b kwargs).
  - destruct p as [c | name keys].
    + rewrite IH. destruct (render a kwargs); simpl; [|reflexivity].
      now destruct (render b kwargs).
    + destruct (get_field kwargs name keys); simpl; [|reflexivity].
      rewrite IH. destruct (render a kwargs); simpl; [|reflexivity].
      destruct (render b kwargs); simpl; [|reflexivity].
      now rewrite append_assoc.
Qed.

Lemma render_text (text : string) (kwargs : dict) :
  render (map Lit (list_ascii_of_string text)) kwargs = Ok text.
Proof.
  induction text as [|c text IH]; simpl; [reflexivity|]. now rewrite IH.
Qed.

(** Filling the pieces of a row succeeds exactly when every path of the row
    is present, and gives the row with the values in place. *)
Lemma render_spec_line (parts : list part) (event : dict) (line : string) :
  forallb named parts = true ->
  render (pieces_of parts) event = Ok line <-> spec_line parts event = Some line.
Proof.
  revert line. induction parts as [|p parts IH]; intros line Hn.
  - simpl. split; intros H; inversion H; reflexivity.
  - simpl in Hn. apply andb_prop in Hn as [Hp Hn].
    unfold pieces_of in *. cbn [flat_map]. rewrite render_app.
    destruct p as [text | [|name keys]]; [| discriminate Hp |]; cbn [pieces_of_part spec_line].
    + rewrite render_text. cbn [bind].
      destruct (render (flat_map pieces_of_part parts) event) as [tail|e] eqn:Hr;
        cbn [bind].
      * rewrite (proj1 (IH tail Hn) eq_refl). simpl.
        split; intros H; inversion H; reflexivity.
      * destruct (spec_line parts event) as [tail|] eqn:Hs; simpl; [|split; discriminate].
        discriminate (proj2 (IH tail Hn) eq_refl).
    + cbn [render].
      destruct (get_field event name keys) as [v|e] eqn:Hg; cbn [bind].
      * apply get_field_path in Hg. rewrite Hg.
        destruct (render (flat_map pieces_of_part parts) event) as [tail|e] eqn:Hr;
          cbn [bind].
        -- rewrite (proj1 (IH tail Hn) eq_refl).
           rewrite append_assoc. simpl.
           split; intros H; inversion H; reflexivity.
        -- destruct (spec_line parts event) as [tail|] eqn:Hs; [|split; discriminate].
           discriminate (proj2 (IH tail Hn) eq_refl).
      * destruct (path_value (VDict event) (name :: keys)) as [v|] eqn:Hpv;
          [|split; discriminate].
        apply get_field_path in Hpv. rewrite Hpv in Hg. discriminate Hg.
Qed.

(** Every row of the specification is an entry of [EVENT_MESSAGES], and the
    template of the entry parses to the pieces of the row. *)
Lemma spec_row_parses (t : string) (parts : list part) :
  In (t, parts) spec_templates ->
  exists template : string,
    lookup t EVENT_MESSAGES = Some template
    /\ parse_template template = Some (pieces_of parts)
    /\ forallb named parts = true.
Proof.
  unfold spec_templates. intros H. cbn [In] in H.
  repeat (destruct H as [H | H]; [inversion H; subst; eexists; repeat split; reflexivity|]).
  contradiction.
Qed.

Lemma format_spec_line (t : string) (parts : list part) (event : dict) :
  In (t, parts) spec_templates ->
  exists template : string,
    lookup t EVENT_MESSAGES = Some template
    /\ forall line : string,
         format template event = Ok line <-> spec_line parts event = Some line.
Proof.
  intros Hin. destruct (spec_row_parses _ _ Hin) as [template [Hl [Hp Hn]]].
  exists template. split; [exact Hl|]. intros line.
  unfold format. rewrite Hp. now apply render_spec_line.
Qed.

Lemma known_type_row (t : string) :
  known_type t = true <-> exists parts : list part, In (t, parts) spec_templates.
Proof.
  split.
  - unfold known_type. destruct (lookup t EVENT_MESSAGES) as [tpl|] eqn:Hl; [|discriminate].
    intros _. apply lookup_In in Hl. unfold EVENT_MESSAGES in Hl. cbn [In] in Hl.
    repeat (destruct Hl as [Hl | Hl];
            [inversion Hl; subst; eexists; unfold spec_templates; cbn [In];
             tauto|]).
    contradiction.
  - intros [parts Hin]. destruct (spec_row_parses _ _ Hin) as [tpl [Hl _]].
    unfold known_type. now rewrite Hl.
Qed.

(** ** The timestamp prefix *)

Lemma format_timestamp_str (s : string) :
  exists out : string, _format_timestamp (VStr s) = Ok out.
Proof.
  unfold _format_timestamp.
  destruct (Datetime.fromisoformat (replace "Z" "+00:00" s)); eexists; reflexivity.
Qed.

Lemma timestamp_prefix_raise (event : dict) (e : exn) :
  timestamp_prefix event = Raise e -> isinstance e CKeyError = false.
Proof.
  unfold timestamp_prefix.
  destruct (truthy (get event "created_at")); [|discriminate].
  destruct (get event "created_at") as [| | | |s| |]; simpl;
    try (intros H; inversion H; reflexivity).
  destruct (Datetime.fromisoformat (replace "Z" "+00:00" s)); discriminate.
Qed.

Lemma timestamp_prefix_in_model (event : dict) :
  created_at_in_model event ->
  exists pre : string,
    timestamp_prefix event = Ok pre
    /\ (dict_get "created_at" event = None -> pre = "").
Proof.
  unfold created_at_in_model, timestamp_prefix, get.
  intros [Hnone | [s Hs]].
  - rewrite Hnone. simpl. exists "". split; reflexivity.
  - rewrite Hs. destruct (truthy (VStr s)).
    + destruct (format_timestamp_str s) as [out Hout]. rewrite Hout. simpl.
      eexists. split; [reflexivity | discriminate].
    + exists "". split; [reflexivity | discriminate].
Qed.

(** What the formatter does when the template of a known type is filled. *)
Lemma format_event_filled (event : dict) (t template message : string) :
  get event "type" = VStr t -> lookup t EVENT_MESSAGES = Some template ->
  format template event = Ok message ->
  format_event event
  = (pre <- timestamp_prefix event ;; Ok (Some (pre ++ message))).
Proof.
  intros Ht Hl Hf. rewrite (format_event_known _ _ _ Ht Hl), Hf.
  destruct (timestamp_prefix event) as [pre|e] eqn:Hp; [reflexivity|].
  now rewrite (timestamp_prefix_raise _ _ Hp).
Qed.

(** ** The generic line *)

(** When filling the template stops at a missing key and the record has no
    [repo] or has an object there, the formatter returns the generic line. *)
Lemma format_event_missing_key
      (event : dict) (t template key : string) :
  get event "type" = VStr t -> lookup t EVENT_MESSAGES = Some template ->
  format template event = Raise (KeyError key) ->
  (dict_get "repo" event = None
   \/ exists d : dict, dict_get "repo" event = Some (VDict d)) ->
  format_event event = Ok (Some (fallback_line t event)).
Proof.
  intros Ht Hl Hf Hrepo. rewrite (format_event_known _ _ _ Ht Hl), Hf.
  cbn [isinstance]. unfold fallback_line. cbn [path_value].
  destruct Hrepo as [Hnone | [d Hd]].
  - rewrite Hnone. reflexivity.
  - rewrite Hd. cbn [get_default bind].
    now destruct (dict_get "name" d).
Qed.

(** A line returned for a record whose template cannot be filled is the
    generic line. *)
Lemma format_event_unfilled
      (event : dict) (t template : string) (e : exn) (out : string) :
  get event "type" = VStr t -> lookup t EVENT_MESSAGES = Some template ->
  format template event = Raise e ->
  format_event event = Ok (Some out) -> out = fallback_line t event.
Proof.
  intros Ht Hl Hf. rewrite (format_event_known _ _ _ Ht Hl), Hf.
  destruct (isinstance e CKeyError); [|discriminate].
  unfold fallback_line. cbn [path_value].
  destruct (dict_get "repo" event) as [[| | | | | |d]|]; cbn [get_default bind];
    try discriminate.
  - destruct (dict_get "name" d); intros H; inversion H; reflexivity.
  - cbn [dict_get]. intros H; inversion H; reflexivity.
Qed.

(** ** Timestamps *)

Lemma digit_of_digit_char (d : Z) :
  digit_of (Datetime.digit_char d) = Some (d mod 10)%Z.
Proof.
  unfold digit_of, Datetime.digit_char.
  assert (Hk : (Z.to_nat (d mod 10) < 10)%nat)
    by (pose proof (Z.mod_pos_bound d 10 ltac:(lia)); lia).
  rewrite nat_ascii_embedding by lia.
  destruct (Nat.leb_spec 48 (48 + Z.to_nat (d mod 10))); [|lia].
  destruct (Nat.leb_spec (48 + Z.to_nat (d mod 10)) 57); [|lia].
  cbn [andb]. f_equal.
  pose proof (Z.mod_pos_bound d 10 ltac:(lia)). lia.
Qed.


Lemma digit_char_eqb (d : Z) (c : ascii) :
  digit_of c = None -> Ascii.eqb (Datetime.digit_char d) c = false.
Proof.
  intros Hc. destruct (Ascii.eqb_spec (Datetime.digit_char d) c) as [Heq|]; [|reflexivity].
  rewrite <- Heq, digit_of_digit_char in Hc. discriminate Hc.
Qed.

Lemma parse_digits_pad2 (n : Z) (rest : string) :
  (0 <= n < 100)%Z ->
  Datetime.parse_digits 2 0 (Datetime.pad2 n ++ rest) = Some (n, rest).
Proof.
  intros Hn. unfold Datetime.pad2. cbn [append Datetime.parse_digits].
  rewrite !digit_of_digit_char. f_equal. f_equal.
  Z.to_euclidean_division_equations. lia.
Qed.

Lemma parse_digits_pad2_end (n : Z) :
  (0 <= n < 100)%Z ->
  Datetime.parse_digits 2 0 (Datetime.pad2 n) = Some (n, "").
Proof.
  intros Hn. unfold Datetime.pad2. cbn [Datetime.parse_digits].
  rewrite !digit_of_digit_char. f_equal. f_equal.
  Z.to_euclidean_division_equations. lia.
Qed.

Lemma parse_digits_pad4 (n : Z) (rest : string) :
  (0 <= n < 10000)%Z ->
  Datetime.parse_digits 4 0 (Datetime.pad4 n ++ rest) = Some (n, rest).
Proof.
  intros Hn. unfold Datetime.pad4, Datetime.pad2. cbn [append Datetime.parse_digits].
  rewrite !digit_of_digit_char. f_equal. f_equal.
  Z.to_euclidean_division_equations. lia.
Qed.


Lemma fromisoformat_valid (s : string) (dt : Datetime.datetime) :
  Datetime.fromisoformat s = Some dt -> Datetime.valid dt = true.
Proof.
  unfold Datetime.fromisoformat, Datetime.construct.
  destruct (Datetime.parse_isoformat_date s) as [[[[y m] d] rest]|]; [|discriminate].
  destruct rest as [|c rest].
  - match goal with |- context [Datetime.valid ?x] =>
      destruct (Datetime.valid x) eqn:Hv end; [|discriminate].
    intros H; inversion H; subst. exact Hv.
  - destruct (Datetime.parse_isoformat_time (Datetime.skip_char (String c rest)))
      as [[[[[h mi] sec] us] tz]|]; [|discriminate].
    match goal with |- context [Datetime.valid ?x] =>
      destruct (Datetime.valid x) eqn:Hv end; [|discriminate].
    intros H; inversion H; subst. exact Hv.
Qed.

(** The minute a timestamp falls in. *)
Lemma strftime_reads_back (dt : Datetime.datetime) :
  Datetime.valid dt = true ->
  Datetime.fromisoformat (Datetime.strftime dt)
  = Some (Datetime.mk_datetime (Datetime.year dt) (Datetime.month dt)
            (Datetime.day dt) (Datetime.hour dt) (Datetime.minute dt) 0 0 None).
Proof.
  intros Hv. pose proof Hv as Hv'.
  unfold Datetime.valid, Datetime.between in Hv.
  repeat (apply andb_prop in Hv as [Hv ?]).
  repeat match goal with
         | H : (_ <=? _)%Z = true |- _ => apply Z.leb_le in H
         end.
  apply Z.leb_le in Hv.
  assert (Hd : (Datetime.days_in_month (Datetime.year dt) (Datetime.month dt) <= 31)%Z).
  { unfold Datetime.days_in_month.
    repeat match goal with |- context [if ?b then _ else _] => destruct b end; lia. }
  unfold Datetime.fromisoformat, Datetime.strftime, Datetime.parse_isoformat_date.
  rewrite parse_digits_pad4 by lia. cbn [append Datetime.expect Ascii.eqb Bool.eqb].
  rewrite parse_digits_pad2 by lia. cbn [append Datetime.expect Ascii.eqb Bool.eqb].
  rewrite parse_digits_pad2 by lia. cbn [append].
  unfold Datetime.skip_char, Datetime.parse_isoformat_time.
  change (Nat.ltb (nat_of_ascii " ") 128) with true. cbv iota.
  assert (Hsplit : Datetime.split_offset
                     (Datetime.pad2 (Datetime.hour dt) ++
                      String ":" (Datetime.pad2 (Datetime.minute dt)))
                   = (Datetime.pad2 (Datetime.hour dt) ++
                      String ":" (Datetime.pad2 (Datetime.minute dt)), None)).
  { unfold Datetime.pad2. cbn [append Datetime.split_offset].
    rewrite !(digit_char_eqb _ "+"), !(digit_char_eqb _ "-") by reflexivity.
    reflexivity. }
  rewrite Hsplit. unfold Datetime.parse_hh_mm_ss_ff.
  rewrite parse_digits_pad2 by lia. cbn [Datetime.expect Ascii.eqb Bool.eqb].
  rewrite parse_digits_pad2_end by lia.
  unfold Datetime.construct.
  match goal with |- context [Datetime.valid ?x] =>
    replace (Datetime.valid x) with true; [reflexivity|] end.
  symmetry. unfold Datetime.valid, Datetime.between. cbn [Datetime.year Datetime.month
    Datetime.day Datetime.hour Datetime.minute Datetime.second Datetime.microsecond].
  repeat (apply andb_true_intro; split); apply Z.leb_le; lia.
Qed.

Lemma replace_no_Z (s : string) :
  no_Z s = true -> replace "Z" "+00:00" s = s.
Proof.
  unfold no_Z, char_in. induction s as [|c s IH]; [reflexivity|].
  cbn [list_ascii_of_string existsb replace].
  rewrite (Ascii.eqb_sym c "Z").
  destruct (Ascii.eqb "Z" c); cbn [orb negb]; [discriminate|].
  intros H. now rewrite IH.
Qed.


(* ===================================================================== *)
(** * The claims                                                          *)
(* ===================================================================== *)

(** C1 at a feed of three records of known types, the second with a null
    [release]: the run prints the first event line, raises in the loop and
    ends with status 1; the other two lines and the summary are never
    printed. *)
Theorem display_activity_stops_on_wrong_shape :
  length (filter recognized sample_feed) = 3%nat
  /\ run ["github-activity"; "octocat"; "10"] (fun _ => Events sample_feed)
     = (Raise (TypeError "'NoneType' object is not subscriptable"),
        mk_world (fun _ => Events sample_feed)
          [ fetching "octocat"; header "octocat";
            "• 2024-01-15 10:30 - Pushed 3 commits to octocat/Hello-World" ]
          [] [feed_url "octocat"])
  /\ exit_status
       (fst (run ["github-activity"; "octocat"; "10"]
                 (fun _ => Events sample_feed))) = 1%Z.
Proof. repeat split; reflexivity. Qed.

(** C2 at records of a known type with a field of the wrong shape: the
    formatter raises instead of returning the generic line.  A [release]
    that is a string or null, and a missing payload next to a null [repo],
    are three such records. *)
Theorem format_event_raises_on_wrong_shape :
  recognized release_as_text = true
  /\ path_value (VDict release_as_text) ["payload"; "release"; "tag_name"] = None
  /\ fallback_line "ReleaseEvent" release_as_text
     = "ReleaseEvent in octocat/Hello-World"
  /\ format_event release_as_text
     = Raise (TypeError "string indices must be integers")
  /\ format_event release_null
     = Raise (TypeError "'NoneType' object is not subscriptable")
  /\ format_event push_repo_null
     = Raise (AttributeError "object has no attribute 'get'").
Proof. repeat split; reflexivity. Qed.

(** C3.  When the answer to the fetch is an HTTP error, the fetcher writes
    one message to the error stream and raises [SystemExit 1], so the process
    ends with a non-zero status: for status 404 the message says that the
    user was not found, for 403 that the rate limit is exceeded, and for any
    other status it is the API error with the status code and the reason
    phrase of the server.  Nothing is returned to the caller. *)
Theorem fetch_activity_http_error
        (prog username : string) (optional : list string) (max_events : Z)
        (status : Z) (phrase : string) (net : string -> response) :
  is_help username = false -> blank username = false ->
  requested_count optional = Some max_events ->
  net (feed_url username) = Fails (HTTPError status phrase) ->
  let message :=
    if (status =? 404)%Z then "User '" ++ username ++ "' not found"
    else if (status =? 403)%Z then
      "API rate limit exceeded. Please try again later."
    else "GitHub API error: " ++ str_of_int status ++ " - " ++ phrase in
  (forall w : world,
      network w = net ->
      fetch_activity username w
      = (Raise (SystemExit 1),
         mk_world net (stdout w) (stderr w ++ ["❌ Error: " ++ message])
                  (requests w ++ [feed_url username])))
  /\ run (prog :: username :: optional) net
     = (Raise (SystemExit 1),
        mk_world net [fetching username] ["❌ Error: " ++ message]
                 [feed_url username])
  /\ exit_status (fst (run (prog :: username :: optional) net)) = 1%Z.
Proof.
  intros Hh Hb Hc Hnet message.
  assert (Hfetch : forall w : world,
             network w = net ->
             fetch_activity username w
             = (Raise (SystemExit 1),
                mk_world net (stdout w) (stderr w ++ ["❌ Error: " ++ message])
                         (requests w ++ [feed_url username]))).
  { intros w Hw. rewrite <- Hw in Hnet.
    rewrite (fetch_activity_http _ _ _ _ Hnet), Hw. reflexivity. }
  assert (Hrun : run (prog :: username :: optional) net
                 = (Raise (SystemExit 1),
                    mk_world net [fetching username] ["❌ Error: " ++ message]
                             [feed_url username])).
  { rewrite (main_display _ _ _ _ _ Hh Hb Hc).
    unfold display_activity, bindM at 1, print at 1. unfold bindM at 1.
    rewrite Hfetch by reflexivity. reflexivity. }
  split; [exact Hfetch | split; [exact Hrun | now rewrite Hrun]].
Qed.

Lemma fetch_activity_http_error_witness :
  exit_status
    (fst (run ["github-activity"; "octocat"]
              (fun _ => Fails (HTTPError 404 "Not Found")))) = 1%Z.
Proof.
  apply (fetch_activity_http_error "github-activity" "octocat" [] 10 404 "Not Found"
           (fun _ => Fails (HTTPError 404 "Not Found")));
    reflexivity.
Defined.

(** C4.  For an event record whose type tag is not one of the eleven known
    types, [format_event] returns [None], and the display loop goes on as if
    the record were not in the feed: nothing is printed for it, the count of
    displayed events stays as it is, and so does what is left of
    [max_events]. *)
Theorem unsupported_event_is_skipped (event : dict) :
  hashable (get event "type") = true -> recognized event = false ->
  format_event event = Ok None
  /\ (forall (max_events count : Z) (rest : list dict) (w : world),
         display_loop max_events (event :: rest) count w
         = display_loop max_events rest count w)
  /\ (forall (max_events count : Z) (before rest : list dict) (w : world),
         display_loop max_events (before ++ event :: rest) count w
         = display_loop max_events (before ++ rest) count w).
Proof.
  intros Hh Hr. pose proof (format_event_unknown _ Hh Hr) as Hf.
  assert (Hstep : forall (max_events count : Z) (rest : list dict) (w : world),
             display_loop max_events (event :: rest) count w
             = display_loop max_events rest count w).
  { intros max_events count rest w.
    destruct (Z.lt_ge_cases count max_events) as [Hlt | Hge].
    - now rewrite (display_loop_step _ _ _ _ _ _ Hlt Hf).
    - now rewrite !display_loop_break by lia. }
  split; [exact Hf | split; [exact Hstep|]].
  intros max_events count before. revert count.
  induction before as [|b before IH]; intros count rest w.
  - apply Hstep.
  - cbn [app].
    destruct (Z.lt_ge_cases count max_events) as [Hlt | Hge].
    + destruct (format_event b) as [[line|]|x] eqn:Hb.
      * rewrite !(display_loop_step _ _ _ _ _ _ Hlt Hb). apply IH.
      * rewrite !(display_loop_step _ _ _ _ _ _ Hlt Hb). apply IH.
      * now rewrite !(display_loop_raise _ _ _ _ _ _ Hlt Hb).
    + now rewrite !display_loop_break by lia.
Qed.

Lemma unsupported_event_is_skipped_witness :
  recognized [("type", VStr "GollumEvent")] = false
  /\ format_event [("type", VStr "GollumEvent")] = Ok None.
Proof.
  split; [reflexivity|].
  apply (unsupported_event_is_skipped [("type", VStr "GollumEvent")]);
    reflexivity.
Defined.



(** C6.  For each of the eleven known types, on a record in which every
    field of the row of that type is present, [format_event] gives the
    literal template of section 4.2 with the values in place, after the
    optional timestamp prefix; the rows are those of [EVENT_MESSAGES], eleven
    of them, and a record of any other type is not rendered. *)
Theorem known_types_render_their_templates
        (event : dict) (t : string) (parts : list part) (line : string) :
  get event "type" = VStr t -> In (t, parts) spec_templates ->
  spec_line parts event = Some line ->
  format_event event = (pre <- timestamp_prefix event ;; Ok (Some (pre ++ line)))
  /\ (created_at_in_model event ->
      exists pre : string,
        format_event event = Ok (Some (pre ++ line))
        /\ (dict_get "created_at" event = None -> pre = ""))
  /\ map fst EVENT_MESSAGES = map fst spec_templates
  /\ length EVENT_MESSAGES = 11%nat
  /\ (forall (other : dict) (t' : string),
         get other "type" = VStr t' ->
         (forall parts' : list part, ~ In (t', parts') spec_templates) ->
         format_event other = Ok None).
Proof.
  intros Ht Hin Hline.
  destruct (format_spec_line t parts event Hin) as [template [Hl Hf]].
  apply Hf in Hline.
  pose proof (format_event_filled _ _ _ _ Ht Hl Hline) as Heq.
  split; [exact Heq|]. split.
  - intros Hm. destruct (timestamp_prefix_in_model _ Hm) as [pre [Hp Hnone]].
    exists pre. rewrite Heq, Hp. split; [reflexivity | exact Hnone].
  - split; [reflexivity | split; [reflexivity|]].
    intros other t' Ht' Hnot. apply format_event_unknown.
    + now rewrite Ht'.
    + unfold recognized. rewrite Ht'.
      destruct (known_type t') eqn:Hk; [|reflexivity].
      apply known_type_row in Hk as [parts' Hin']. now apply Hnot in Hin'.
Qed.

Lemma known_types_render_their_templates_witness :
  spec_line [Text "Pushed "; Path ["payload"; "commits"]; Text " commits to ";
             Path ["repo"; "name"]] push_event
  = Some "Pushed 3 commits to octocat/Hello-World"
  /\ format_event push_event
     = (pre <- timestamp_prefix push_event ;;
        Ok (Some (pre ++ "Pushed 3 commits to octocat/Hello-World"))).
Proof.
  split; [reflexivity|].
  apply (known_types_render_their_templates push_event "PushEvent"
           [Text "Pushed "; Path ["payload"; "commits"]; Text " commits to ";
            Path ["repo"; "name"]]
           "Pushed 3 commits to octocat/Hello-World");
    [reflexivity | simpl; tauto | reflexivity].
Defined.

(** C7, as the code has it.  On a record of a known type in which every
    field of the row is present: when [created_at] is a non-empty string the
    line is the output of the timestamp formatter, then [ - ], then the
    filled template; when [created_at] is absent, null or empty the line is
    the filled template alone.  A line returned for a record in which a
    field of the row is not present is the generic line, with no prefix. *)
Theorem timestamp_prefix_of_filled_templates
        (event : dict) (t : string) (parts : list part) :
  get event "type" = VStr t -> In (t, parts) spec_templates ->
  (forall line s : string,
      spec_line parts event = Some line ->
      get event "created_at" = VStr s -> s <> "" ->
      exists ts : string,
        _format_timestamp (VStr s) = Ok ts
        /\ format_event event = Ok (Some (ts ++ " - " ++ line)))
  /\ (forall line : string,
         spec_line parts event = Some line ->
         truthy (get event "created_at") = false ->
         format_event event = Ok (Some line))
  /\ (forall out : string,
         spec_line parts event = None ->
         format_event event = Ok (Some out) ->
         out = fallback_line t event).
Proof.
  intros Ht Hin.
  destruct (format_spec_line t parts event Hin) as [template [Hl Hf]].
  repeat split.
  - intros line s Hline Hs Hne. apply Hf in Hline.
    destruct (format_timestamp_str s) as [ts Hts]. exists ts. split; [exact Hts|].
    rewrite (format_event_filled _ _ _ _ Ht Hl Hline).
    unfold timestamp_prefix. rewrite Hs, (truthy_str s Hne), Hts. cbn [bind].
    now rewrite append_assoc.
  - intros line Hline Hfalse. apply Hf in Hline.
    rewrite (format_event_filled _ _ _ _ Ht Hl Hline).
    unfold timestamp_prefix. now rewrite Hfalse.
  - intros out Hnone Hout.
    destruct (format template event) as [line|e] eqn:Hfmt.
    + rewrite (proj1 (Hf line) eq_refl) in Hnone. discriminate Hnone.
    + exact (format_event_unfilled _ _ _ _ _ Ht Hl Hfmt Hout).
Qed.

Lemma timestamp_prefix_of_filled_templates_witness :
  get push_event "type" = VStr "PushEvent"
  /\ format_event push_event
     = Ok (Some "2024-01-15 10:30 - Pushed 3 commits to octocat/Hello-World").
Proof.
  split; [reflexivity|].
  destruct (timestamp_prefix_of_filled_templates push_event "PushEvent"
              [Text "Pushed "; Path ["payload"; "commits"]; Text " commits to ";
               Path ["repo"; "name"]] eq_refl (or_introl eq_refl))
    as [Hprefixed _].
  destruct (Hprefixed "Pushed 3 commits to octocat/Hello-World"
              "2024-01-15T10:30:00Z" eq_refl eq_refl)
    as [ts [Hts Hline]]; [discriminate|].
  vm_compute in Hts. inversion Hts; subst ts. exact Hline.
Defined.

(** C7 as stated fails on a push that has [created_at] and no [commits]: the
    line is the generic one and does not open with the timestamp. *)
Lemma created_at_without_prefix :
  recognized push_without_commits = true
  /\ dict_get "created_at" push_without_commits = Some (VStr "2024-01-15T10:30:00Z")
  /\ _format_timestamp (VStr "2024-01-15T10:30:00Z") = Ok "2024-01-15 10:30"
  /\ format_event push_without_commits = Ok (Some "PushEvent in octocat/Hello-World")
  /\ ~ (exists rest : string,
           format_event push_without_commits
           = Ok (Some ("2024-01-15 10:30" ++ " - " ++ rest))).
Proof.
  repeat split; try reflexivity.
  intros [rest H]. vm_compute in H. discriminate H.
Qed.



(** C9.  When the fetch returns an empty sequence, [display_activity] prints
    the line that no recent activity was found and returns, and the process
    ends with status 0; a fetch that fails instead ends the run by raising
    and never prints that line. *)
Theorem empty_feed_is_not_an_error
        (prog username : string) (optional : list string) (max_events : Z)
        (net : string -> response) :
  is_help username = false -> blank username = false ->
  requested_count optional = Some max_events ->
  net (feed_url username) = Events [] ->
  (forall (w : world) (count : Z),
      network w = net ->
      display_activity username count w
      = (Ok tt,
         mk_world net
           (stdout w ++ [fetching username;
                         "📭 No recent activity found for '" ++ username ++ "'"])
           (stderr w) (requests w ++ [feed_url username])))
  /\ run (prog :: username :: optional) net
     = (Ok tt,
        mk_world net
          [fetching username;
           "📭 No recent activity found for '" ++ username ++ "'"]
          [] [feed_url username])
  /\ exit_status (fst (run (prog :: username :: optional) net)) = 0%Z
  /\ (forall (other : string -> response) (e : exn),
         other (feed_url username) = Fails e ->
         exists x : exn,
           fst (run (prog :: username :: optional) other) = Raise x
           /\ stdout (snd (run (prog :: username :: optional) other))
              = [fetching username]).
Proof.
  intros Hh Hb Hc Hnet.
  assert (Hd : forall (w : world) (count : Z),
             network w = net ->
             display_activity username count w
             = (Ok tt,
                mk_world net
                  (stdout w ++ [fetching username;
                                "📭 No recent activity found for '" ++ username ++ "'"])
                  (stderr w) (requests w ++ [feed_url username]))).
  { intros w count Hw. rewrite <- Hw in Hnet.
    rewrite (display_activity_empty _ _ _ Hnet).
    unfold printed, after_fetch, no_activity. cbn [network stdout stderr requests].
    now rewrite Hw, <- app_assoc. }
  assert (Hrun : run (prog :: username :: optional) net
                 = (Ok tt,
                    mk_world net
                      [fetching username;
                       "📭 No recent activity found for '" ++ username ++ "'"]
                      [] [feed_url username])).
  { rewrite (main_display _ _ _ _ _ Hh Hb Hc). now rewrite Hd. }
  split; [exact Hd | split; [exact Hrun | split; [now rewrite Hrun|]]].
  intros other e Hother.
  rewrite (main_display _ _ _ _ _ Hh Hb Hc).
  destruct (display_activity_fails username max_events e (start other) Hother)
    as [x [w' [Hda Hout]]].
  rewrite Hda. exists x. split; [reflexivity | exact Hout].
Qed.

Lemma empty_feed_is_not_an_error_witness :
  blank "octocat" = false
  /\ requested_count ["5"] = Some 5%Z
  /\ exit_status
       (fst (run ["github-activity"; "octocat"; "5"] (fun _ => Events []))) = 0%Z.
Proof.
  split; [reflexivity | split; [reflexivity|]].
  apply (empty_feed_is_not_an_error "github-activity" "octocat" ["5"] 5
           (fun _ => Events []));
    reflexivity.
Defined.

(** C10.  An invocation with a username and no [max_events] argument runs
    the display with a maximum of 10, so at most 10 event lines are
    printed. *)
Theorem default_max_events_is_10
        (prog username : string) (net : string -> response) :
  is_help username = false -> blank username = false ->
  run [prog; username] net = display_activity username 10 (start net)
  /\ (length (event_lines (stdout (snd (run [prog; username] net)))) <= 10)%nat.
Proof.
  intros Hh Hb.
  assert (Hrun : run [prog; username] net = display_activity username 10 (start net))
    by (apply main_display; [exact Hh | exact Hb | reflexivity]).
  split; [exact Hrun|]. rewrite Hrun.
  destruct (display_activity_event_lines username 10 (start net)) as [shown [Hs Hl]].
  rewrite Hs. cbn [start stdout event_lines filter app].
  rewrite length_map. simpl in Hl. lia.
Qed.

Lemma default_max_events_is_10_witness :
  is_help "octocat" = false /\ blank "octocat" = false
  /\ run ["github-activity"; "octocat"] (fun _ => Events [])
     = display_activity "octocat" 10 (start (fun _ => Events [])).
Proof.
  split; [reflexivity | split; [reflexivity|]].
  apply (default_max_events_is_10 "github-activity" "octocat" (fun _ => Events []));
    reflexivity.
Defined.

(* ===================================================================== *)
(** * More of the script                                                  *)
(* ===================================================================== *)

(** ** The fetcher, whatever the answer *)

Lemma fetch_activity_exception (username : string) (e : exn) (w : world) :
  network w (feed_url username) = Fails e -> isinstance e CException = true ->
  exists message : string,
    fetch_activity username w
    = (Raise (SystemExit 1),
       mk_world (network w) (stdout w) (stderr w ++ [error_line message])
                (requests w ++ [feed_url username]))
    /\ (isinstance e CHTTPError = false ->
        message =
          if isinstance e CURLError then "Network error: " ++ reason e
          else if isinstance e CJSONDecodeError then
            "Invalid response from GitHub API: " ++ str_exn e
          else "Unexpected error: " ++ str_exn e).
Proof.
  intros Hnet Hexc. unfold fetch_activity, bindM, urlopen_json. rewrite url_eq.
  cbn [network]. rewrite Hnet.
  destruct e as [k|m|m|m|m|st ph|r|m|st]; cbn [isinstance code] in *;
    try discriminate Hexc;
    try (eexists; split; [reflexivity | intros _; reflexivity]).
  destruct (st =? 404)%Z; [|destruct (st =? 403)%Z];
    (eexists; split; [reflexivity | discriminate]).
Qed.

Lemma fetch_activity_passes (username : string) (e : exn) (w : world) :
  network w (feed_url username) = Fails e -> isinstance e CException = false ->
  fetch_activity username w
  = (Raise e,
     mk_world (network w) (stdout w) (stderr w) (requests w ++ [feed_url username])).
Proof.
  intros Hnet Hexc. unfold fetch_activity, bindM, urlopen_json. rewrite url_eq.
  cbn [network]. rewrite Hnet.
  destruct e as [k|m|m|m|m|st ph|r|m|st]; cbn [isinstance] in *;
    try discriminate Hexc.
  reflexivity.
Qed.


(** X2.  When the body of the fetch raises an exception that is no HTTP
    error (a transport failure, a body that is not JSON, or anything else
    under [Exception]), the fetcher writes one message to the error stream
    and raises [SystemExit 1]: a network error with the reason, an invalid
    response with the parse error, or an unexpected error with the text of
    the exception.  A [ValueError] that is no [JSONDecodeError] counts as
    unexpected. *)
Theorem fetch_activity_failure_is_terminal
        (username : string) (e : exn) (w : world) :
  network w (feed_url username) = Fails e ->
  isinstance e CException = true -> isinstance e CHTTPError = false ->
  let message :=
    match e with
    | URLError why => "Network error: " ++ why
    | JSONDecodeError detail => "Invalid response from GitHub API: " ++ detail
    | other => "Unexpected error: " ++ str_exn other
    end in
  fetch_activity username w
  = (Raise (SystemExit 1),
     mk_world (network w) (stdout w) (stderr w ++ ["❌ Error: " ++ message])
              (requests w ++ [feed_url username])).
Proof.
  intros Hnet Hexc Hhttp message.
  destruct (fetch_activity_exception _ _ _ Hnet Hexc) as [m [Hf Hm]].
  rewrite Hf, (Hm Hhttp). subst message.
  destruct e as [k|m'|m'|m'|m'|st ph|r|m'|st]; cbn [isinstance] in *;
    try discriminate; reflexivity.
Qed.

Lemma fetch_activity_failure_is_terminal_witness :
  fetch_activity "octocat"
    (start (fun _ => Fails (ValueError "'utf-8' codec can't decode byte 0xff")))
  = (Raise (SystemExit 1),
     mk_world (fun _ => Fails (ValueError "'utf-8' codec can't decode byte 0xff"))
       [] ["❌ Error: Unexpected error: 'utf-8' codec can't decode byte 0xff"]
       [feed_url "octocat"]).
Proof.
  apply (fetch_activity_failure_is_terminal "octocat"
           (ValueError "'utf-8' codec can't decode byte 0xff")
           (start (fun _ => Fails (ValueError "'utf-8' codec can't decode byte 0xff"))));
    reflexivity.
Defined.

(** ** What a display and a run leave behind *)

Lemma display_loop_world (max_events : Z) (events : list dict) (c : Z) (w : world) :
  network (snd (display_loop max_events events c w)) = network w
  /\ stderr (snd (display_loop max_events events c w)) = stderr w
  /\ requests (snd (display_loop max_events events c w)) = requests w.
Proof.
  destruct (display_loop_bound max_events events c w) as [shown [Hs _]].
  rewrite Hs. repeat split.
Qed.

Lemma display_activity_raises (username : string) (max_events : Z) (x : exn)
      (w w' : world) :
  fetch_activity username (printed w [fetching username]) = (Raise x, w') ->
  display_activity username max_events w = (Raise x, w').
Proof.
  intros Hf. unfold display_activity, bindM at 1, print at 1. unfold bindM at 1.
  unfold printed, fetching in Hf. now rewrite Hf.
Qed.

(** A display sends its one request; the error stream gets nothing, or one
    line together with [SystemExit 1]. *)
Lemma display_activity_world (username : string) (max_events : Z) (w : world) :
  network (snd (display_activity username max_events w)) = network w
  /\ requests (snd (display_activity username max_events w))
     = (requests w ++ [feed_url username])%list
  /\ (stderr (snd (display_activity username max_events w)) = stderr w
      \/ exists message : string,
           stderr (snd (display_activity username max_events w))
           = (stderr w ++ [error_line message])%list
           /\ fst (display_activity username max_events w) = Raise (SystemExit 1)).
Proof.
  destruct (network w (feed_url username)) as [[|e rest]|x] eqn:Hnet.
  - rewrite (display_activity_empty _ _ _ Hnet). cbn. auto.
  - rewrite (display_activity_loop _ _ _ _ _ Hnet).
    destruct (display_loop_world max_events (e :: rest) 0
                (printed (after_fetch w username) [header username]))
      as [Hn [He Hr]].
    destruct (display_loop max_events (e :: rest) 0
                (printed (after_fetch w username) [header username]))
      as [[count|y] w']; cbn [snd fst] in *; cbn [printed network requests stderr];
      rewrite ?Hn, ?He, ?Hr; cbn; auto.
  - assert (Hnet' : network (printed w [fetching username]) (feed_url username)
                    = Fails x) by exact Hnet.
    destruct (isinstance x CException) eqn:Hexc.
    + destruct (fetch_activity_exception _ _ _ Hnet' Hexc) as [message [Hf _]].
      rewrite (display_activity_raises _ _ _ _ _ Hf).
      cbn [fst snd network stderr requests stdout printed].
      split; [reflexivity | split; [reflexivity|]].
      right. exists message. split; reflexivity.
    + rewrite (display_activity_raises _ _ _ _ _
                 (fetch_activity_passes _ _ _ Hnet' Hexc)).
      cbn [fst snd network stderr requests stdout printed].
      split; [reflexivity | split; [reflexivity | left; reflexivity]].
Qed.

(** The ways a run can go. *)
Lemma run_cases (argv : list string) (net : string -> response) :
  run argv net = (Raise (SystemExit 0), mk_world net [usage] [] [])
  \/ (exists message : string,
         run argv net
         = (Raise (SystemExit 1), mk_world net [] [error_line message] []))
  \/ (exists (prog username : string) (optional : list string) (max_events : Z),
         argv = prog :: username :: optional
         /\ is_help username = false /\ blank username = false
         /\ requested_count optional = Some max_events
         /\ run argv net = display_activity username max_events (start net)).
Proof.
  destruct argv as [|prog [|username optional]]; [left; reflexivity .. |].
  destruct (is_help username) eqn:Hh.
  - left. unfold run, main. rewrite Hh. reflexivity.
  - right. destruct (requested_count optional) as [max_events|] eqn:Hc.
    + destruct (blank username) eqn:Hb.
      * left. exists username_message. exact (main_blank_username _ _ _ _ _ Hb Hc).
      * right. exists prog, username, optional, max_events.
        repeat split; try assumption. exact (main_display _ _ _ _ _ Hh Hb Hc).
    + left. exists max_events_message. exact (main_bad_count _ _ _ _ Hh Hc).
Qed.


(** X3.  Without arguments, or with [-h] or [--help] as the first argument,
    the script prints the usage text on standard output and exits with
    status 0: nothing goes to the error stream, no request is sent, and the
    arguments after the help flag are not looked at. *)
Theorem main_prints_usage (argv : list string) (net : string -> response) :
  (length argv < 2)%nat
  \/ (exists (prog flag : string) (others : list string),
         argv = prog :: flag :: others /\ (flag = "-h" \/ flag = "--help")) ->
  run argv net = (Raise (SystemExit 0), mk_world net [usage] [] [])
  /\ exit_status (fst (run argv net)) = 0%Z.
Proof.
  intros Hargs.
  assert (Hrun : run argv net = (Raise (SystemExit 0), mk_world net [usage] [] [])).
  { destruct Hargs as [Hlen | [prog [flag [others [-> Hflag]]]]].
    - destruct argv as [|a [|b rest]]; [reflexivity | reflexivity | simpl in Hlen; lia].
    - unfold run, main.
      replace (is_help flag) with true; [reflexivity|].
      unfold is_help. destruct Hflag as [-> | ->]; reflexivity. }
  split; [exact Hrun | now rewrite Hrun].
Qed.

Lemma main_prints_usage_witness :
  run ["github-activity"; "--help"; "0"] (fun _ => Events [])
  = (Raise (SystemExit 0), mk_world (fun _ => Events []) [usage] [] []).
Proof.
  apply (main_prints_usage ["github-activity"; "--help"; "0"] (fun _ => Events [])).
  right. exists "github-activity", "--help", ["0"]. split; [reflexivity | right; reflexivity].
Defined.



(** X5.  A run of the script sends at most one request, and when it sends
    one it is the request for the events of the user named by the first
    argument: there is no second page, no retry, and no request at all on the
    help and validation paths. *)
Theorem run_sends_at_most_one_request
        (argv : list string) (net : string -> response) :
  requests (snd (run argv net)) = []
  \/ exists (prog username : string) (optional : list string),
       argv = prog :: username :: optional
       /\ requests (snd (run argv net))
          = [("https://api.github.com/users/" ++ username ++ "/events")%string].
Proof.
  destruct (run_cases argv net)
    as [Hrun | [[message Hrun] | [prog [username [optional [n [Hargv [_ [_ [_ Hrun]]]]]]]]]].
  - left. now rewrite Hrun.
  - left. now rewrite Hrun.
  - right. exists prog, username, optional. split; [exact Hargv|].
    rewrite Hrun.
    destruct (display_activity_world username n (start net)) as [_ [Hr _]].
    rewrite Hr. reflexivity.
Qed.


(** ** The display *)

Lemma lines_of_supported (events : list dict) :
  Forall formats events ->
  lines_of events = map the_line (filter recognized events).
Proof.
  induction 1 as [|e rest [formatted Hf] _ IH]; [reflexivity|].
  rewrite lines_of_cons, IH. cbn [filter].
  rewrite (format_event_recognized _ _ Hf). unfold line_of. rewrite Hf.
  destruct formatted as [line|]; [|reflexivity].
  cbn [map app]. f_equal. unfold the_line. now rewrite Hf.
Qed.

(** X7.  On a non-empty feed on which the formatter returns for every
    record, a display prints the fetching line, the header, one bullet line
    for each of the first [max_events] events of a known type, in feed order,
    and then the closing line: the summary with the number of bullet lines,
    or the line that no supported event was found when there is none.  The
    number of bullet lines is the smaller of [max_events] and the number of
    events of a known type.  It returns, and writes nothing to the error
    stream. *)
Theorem display_activity_on_formatted_feed
        (username : string) (max_events : Z) (events : list dict) (w : world) :
  network w (feed_url username) = Events events -> events <> [] ->
  Forall formats events ->
  let shown := firstn (Z.to_nat max_events) (filter recognized events) in
  display_activity username max_events w
  = (Ok tt,
     mk_world (network w)
       (stdout w
        ++ [fetching username; header username]
        ++ map (fun event => ("• " ++ the_line event)%string) shown
        ++ [match shown with
            | [] => "No supported event types found in recent activity."
            | _ => summary (Z.of_nat (length shown))
            end])
       (stderr w) (requests w ++ [feed_url username]))
  /\ length shown
     = Nat.min (Z.to_nat max_events) (length (filter recognized events)).
Proof.
  intros Hnet Hne Hall shown. split; [|apply length_firstn].
  rewrite (display_activity_spec _ _ _ _ Hnet Hne Hall).
  rewrite (lines_of_supported _ Hall), !firstn_map. fold shown.
  unfold printed, after_fetch. cbn [network stdout stderr requests].
  f_equal. f_equal. rewrite <- !app_assoc. cbn [app]. f_equal. f_equal. f_equal.
  rewrite map_map. f_equal. unfold closing. rewrite length_map.
  now destruct shown.
Qed.

Lemma display_activity_on_formatted_feed_witness :
  Forall formats [push_event; [("type", VStr "GollumEvent")]; watch_event]
  /\ stdout
       (snd (display_activity "octocat" 1
               (start (fun _ => Events [push_event; [("type", VStr "GollumEvent")];
                                        watch_event]))))
     = [ fetching "octocat"; header "octocat";
         "• 2024-01-15 10:30 - Pushed 3 commits to octocat/Hello-World";
         summary 1 ].
Proof.
  assert (Hall : Forall formats
                   [push_event; [("type", VStr "GollumEvent")]; watch_event])
    by (repeat constructor; eexists; reflexivity).
  split; [exact Hall|].
  destruct (display_activity_on_formatted_feed "octocat" 1
              [push_event; [("type", VStr "GollumEvent")]; watch_event]
              (start (fun _ => Events [push_event; [("type", VStr "GollumEvent")];
                                       watch_event]))
              eq_refl ltac:(discriminate) Hall) as [Hrun _].
  rewrite Hrun. reflexivity.
Defined.

(** X8.  When the display loop comes to its end, the count it returns is the
    count it started from plus the number of bullet lines it printed, and it
    printed no more of them than [max_events] allowed; it printed nothing
    else.  So the number in the summary line is the number of event lines
    above it. *)
Theorem display_loop_counts_its_lines
        (max_events : Z) (events : list dict) (c n : Z) (w w' : world) :
  display_loop max_events events c w = (Ok n, w') ->
  exists shown : list string,
    w' = mk_world (network w)
           (stdout w ++ map (fun line => ("• " ++ line)%string) shown)
           (stderr w) (requests w)
    /\ n = (c + Z.of_nat (length shown))%Z
    /\ (length shown <= Z.to_nat (max_events - c))%nat.
Proof.
  revert c w. induction events as [|e rest IH]; intros c w Hloop.
  - inversion Hloop; subst. exists []. cbn [map length].
    rewrite app_nil_r. destruct w'. repeat split; simpl; lia.
  - destruct (Z.lt_ge_cases c max_events) as [Hlt | Hge].
    + destruct (format_event e) as [[line|]|x] eqn:Hf.
      * rewrite (display_loop_step _ _ _ _ _ _ Hlt Hf) in Hloop.
        destruct (IH _ _ Hloop) as [shown [Hw [Hn Hl]]].
        exists (line :: shown). subst w' n.
        unfold printed, bullet. cbn [network stdout stderr requests map length].
        rewrite <- app_assoc. cbn [app]. repeat split; lia.
      * rewrite (display_loop_step _ _ _ _ _ _ Hlt Hf) in Hloop.
        destruct (IH _ _ Hloop) as [shown [Hw [Hn Hl]]].
        exists shown. repeat split; assumption.
      * rewrite (display_loop_raise _ _ _ _ _ _ Hlt Hf) in Hloop. discriminate Hloop.
    + rewrite display_loop_break in Hloop by lia. inversion Hloop; subst.
      exists []. cbn [map length]. rewrite app_nil_r. destruct w'.
      repeat split; simpl; lia.
Qed.

Lemma display_loop_counts_its_lines_witness :
  exists shown : list string,
    length shown = 1%nat
    /\ snd (display_loop 1 [push_event; watch_event] 0 (start (fun _ => Events [])))
       = mk_world (fun _ => Events [])
           (map (fun line => ("• " ++ line)%string) shown) [] [].
Proof.
  destruct (display_loop_counts_its_lines 1 [push_event; watch_event] 0 1
              (start (fun _ => Events []))
              (snd (display_loop 1 [push_event; watch_event] 0
                      (start (fun _ => Events []))))
              eq_refl)
    as [shown [Hw [Hn Hl]]].
  exists shown. split; [lia | exact Hw].
Defined.

(** X9.  Called with a count of zero or less on a non-empty feed,
    [display_activity] formats no record at all: it prints the header and
    then the line that no supported event type was found, and returns,
    whatever the records are. *)
Theorem display_activity_without_budget
        (username : string) (max_events : Z) (events : list dict) (w : world) :
  (max_events <= 0)%Z ->
  network w (feed_url username) = Events events -> events <> [] ->
  display_activity username max_events w
  = (Ok tt,
     mk_world (network w)
       (stdout w
        ++ [fetching username; header username;
            "No supported event types found in recent activity."])
       (stderr w) (requests w ++ [feed_url username])).
Proof.
  intros Hmax Hnet Hne. destruct events as [|e rest]; [contradiction|].
  rewrite (display_activity_loop _ _ _ _ _ Hnet).
  rewrite display_loop_break by lia.
  unfold printed, after_fetch. cbn [network stdout stderr requests Z.eqb].
  now rewrite <- !app_assoc.
Qed.

Lemma display_activity_without_budget_witness :
  fst (display_activity "octocat" 0 (start (fun _ => Events [release_null])))
  = Ok tt.
Proof.
  rewrite (display_activity_without_budget "octocat" 0 [release_null]
             (start (fun _ => Events [release_null])));
    [reflexivity | lia | reflexivity | discriminate].
Defined.

(** X10.  Once the records examined so far have given as many lines as
    [max_events] allows, the loop stops: the records that follow are not
    formatted, so they change neither the output nor the outcome, whatever
    they hold. *)
Theorem records_past_the_limit_are_not_read
        (max_events : Z) (before after : list dict) (c : Z) (w : world) :
  Forall formats before ->
  (Z.to_nat (max_events - c) <= length (filter recognized before))%nat ->
  display_loop max_events (before ++ after) c w
  = display_loop max_events before c w.
Proof.
  intros Hall. revert c w.
  induction Hall as [|e rest [formatted Hf] Hrest IH]; intros c w Hlen.
  - simpl in Hlen. cbn [app]. rewrite !display_loop_break by lia. reflexivity.
  - cbn [app]. destruct (Z.lt_ge_cases c max_events) as [Hlt | Hge].
    + rewrite !(display_loop_step _ _ _ _ _ _ Hlt Hf).
      cbn [filter] in Hlen. rewrite (format_event_recognized _ _ Hf) in Hlen.
      destruct formatted as [line|]; apply IH.
      * cbn [length] in Hlen. lia.
      * exact Hlen.
    + rewrite !display_loop_break by lia. reflexivity.
Qed.

Lemma records_past_the_limit_are_not_read_witness :
  display_loop 1 ([push_event] ++ [release_null]) 0 (start (fun _ => Events []))
  = display_loop 1 [push_event] 0 (start (fun _ => Events [])).
Proof.
  apply (records_past_the_limit_are_not_read 1 [push_event] [release_null] 0
           (start (fun _ => Events []))).
  - repeat constructor. eexists. reflexivity.
  - simpl. lia.
Defined.

(** X11.  On a non-empty feed in which no record is of a known type, a
    display prints no event line: after the header comes the line that no
    supported event type was found, and the display returns; a run on such a
    feed ends with status 0. *)
Theorem display_activity_all_unsupported
        (username : string) (max_events : Z) (events : list dict) (w : world) :
  network w (feed_url username) = Events events -> events <> [] ->
  Forall (fun event => unsupported event = true) events ->
  display_activity username max_events w
  = (Ok tt,
     mk_world (network w)
       (stdout w
        ++ [fetching username; header username;
            "No supported event types found in recent activity."])
       (stderr w) (requests w ++ [feed_url username])).
Proof.
  intros Hnet Hne Hall.
  assert (Hf : Forall formats events).
  { eapply Forall_impl; [|exact Hall]. intros e He.
    unfold unsupported in He. apply andb_prop in He as [Hh Hr].
    exists None. apply format_event_unknown; [exact Hh|].
    now destruct (recognized e). }
  assert (Hnone : filter recognized events = []).
  { clear Hnet Hne Hf. induction Hall as [|e rest He _ IH]; [reflexivity|].
    cbn [filter]. unfold unsupported in He. apply andb_prop in He as [_ Hr].
    destruct (recognized e); [discriminate Hr | exact IH]. }
  rewrite (display_activity_spec _ max_events _ _ Hnet Hne Hf).
  rewrite (lines_of_supported _ Hf), Hnone. cbn [map]. rewrite firstn_nil.
  unfold printed, after_fetch, closing. cbn [network stdout stderr requests map app].
  now rewrite <- !app_assoc.
Qed.

Lemma display_activity_all_unsupported_witness :
  exit_status
    (fst (display_activity "octocat" 10
            (start (fun _ => Events [[("type", VStr "GollumEvent")]; []])))) = 0%Z.
Proof.
  rewrite (display_activity_all_unsupported "octocat" 10
             [[("type", VStr "GollumEvent")]; []]
             (start (fun _ => Events [[("type", VStr "GollumEvent")]; []])));
    [reflexivity | reflexivity | discriminate | repeat constructor].
Defined.

(** ** The formatter on well-shaped records *)

Lemma getitem_object (d : dict) (key : string) :
  (exists v : value, getitem (VDict d) key = Ok v /\ dict_get key d = Some v)
  \/ (getitem (VDict d) key = Raise (KeyError key) /\ dict_get key d = None).
Proof.
  unfold getitem. destruct (dict_get key d) as [v|]; [left; eauto | right; auto].
Qed.

(** The paths of the table: a key of the payload, a key of the repository,
    or a key of the release in the payload. *)
Lemma table_paths (t : string) (parts : list part) (path : list string) :
  In (t, parts) spec_templates -> In (Path path) parts ->
  (exists key : string, path = ["payload"; key] /\ key <> "release")
  \/ (exists key : string, path = ["repo"; key])
  \/ (exists key : string, path = ["payload"; "release"; key]).
Proof.
  unfold spec_templates. intros Hin Hpath. cbn [In] in Hin.
  repeat (destruct Hin as [Hin | Hin];
          [inversion Hin; subst; cbn [In] in Hpath;
           repeat (destruct Hpath as [Hpath | Hpath];
                   [try discriminate Hpath; inversion Hpath; subst;
                    first [ left; eexists; split; [reflexivity | discriminate]
                          | right; left; eexists; reflexivity
                          | right; right; eexists; reflexivity ]|]);
           contradiction|]).
  contradiction.
Qed.

(** On a well-shaped record a field of a template is found, or a key is
    missing: nothing else is raised. *)
Lemma get_field_well_shaped (event : dict) (t : string) (parts : list part)
      (name : string) (keys : list string) :
  well_shaped event = true ->
  In (t, parts) spec_templates -> In (Path (name :: keys)) parts ->
  (exists v : value, get_field event name keys = Ok v)
  \/ (exists key : string, get_field event name keys = Raise (KeyError key)).
Proof.
  unfold well_shaped. intros Hw Hin Hpath.
  repeat (apply andb_prop in Hw as [Hw ?]).
  destruct (table_paths _ _ _ Hin Hpath)
    as [[key [Heq Hne]] | [[key Heq] | [key Heq]]]; inversion Heq; subst;
    unfold get_field; cbn [getitems].
  - destruct (dict_get "payload" event) as [[| | | | | |p]|]; try discriminate;
      [|right; eauto].
    destruct (getitem_object p key) as [[v [Hg _]] | [Hg _]]; rewrite Hg; cbn [bind]; eauto.
  - destruct (dict_get "repo" event) as [[| | | | | |r]|]; try discriminate;
      [|right; eauto].
    destruct (getitem_object r key) as [[v [Hg _]] | [Hg _]]; rewrite Hg; cbn [bind]; eauto.
  - destruct (dict_get "payload" event) as [[| | | | | |p]|]; try discriminate;
      [|right; eauto].
    destruct (getitem_object p "release") as [[v [Hg Hd]] | [Hg _]]; rewrite Hg; cbn [bind];
      [|right; eauto].
    rewrite Hd in *. destruct v as [| | | | | |rel]; try discriminate.
    destruct (getitem_object rel key) as [[v [Hg' _]] | [Hg' _]]; rewrite Hg'; cbn [bind]; eauto.
Qed.

Lemma render_well_shaped (event : dict) (t : string) (parts all : list part) :
  well_shaped event = true -> In (t, all) spec_templates ->
  incl parts all -> forallb named parts = true ->
  (exists line : string, render (pieces_of parts) event = Ok line)
  \/ (exists key : string, render (pieces_of parts) event = Raise (KeyError key)).
Proof.
  intros Hw Hin. induction parts as [|p parts IH]; intros Hincl Hn.
  - left. exists "". reflexivity.
  - cbn [forallb] in Hn. apply andb_prop in Hn as [Hp Hn].
    assert (Hincl' : incl parts all) by (intros x Hx; apply Hincl; now right).
    specialize (IH Hincl' Hn).
    unfold pieces_of in *. cbn [flat_map]. rewrite render_app.
    destruct p as [text | [|name keys]]; [| discriminate Hp |]; cbn [pieces_of_part].
    + rewrite render_text. cbn [bind].
      destruct IH as [[line Hl] | [key Hk]]; [rewrite Hl | rewrite Hk]; cbn [bind]; eauto.
    + cbn [render].
      destruct (get_field_well_shaped event t all name keys Hw Hin
                  (Hincl _ (or_introl eq_refl))) as [[v Hv] | [key Hk]];
        [rewrite Hv | rewrite Hk]; cbn [bind]; [|eauto].
      destruct IH as [[line Hl] | [key Hk]]; [rewrite Hl | rewrite Hk]; cbn [bind]; eauto.
Qed.

Lemma timestamp_prefix_well_shaped (event : dict) :
  well_shaped event = true -> exists pre : string, timestamp_prefix event = Ok pre.
Proof.
  unfold well_shaped. intros Hw. repeat (apply andb_prop in Hw as [Hw ?]).
  unfold timestamp_prefix, get.
  destruct (dict_get "created_at" event) as [[| | | |s| |]|]; try discriminate;
    try (exists ""; reflexivity).
  destruct (truthy (VStr s)); [|exists ""; reflexivity].
  destruct (format_timestamp_str s) as [out Hout]. rewrite Hout. cbn [bind]. eauto.
Qed.

(** X12.  On a record in which [repo], [payload] and the [release] of the
    payload are objects where they are present, [created_at] is a string,
    null or absent, and the type tag is no list or object, [format_event]
    returns.  For an unknown type it returns [None]; for a known type it
    returns the filled template after the timestamp prefix when every field
    of the template is present, and otherwise the generic line
    [<type> in <repo.name>], with [unknown] for a missing name. *)
Theorem format_event_on_well_shaped_record (event : dict) :
  well_shaped event = true ->
  formats event
  /\ (recognized event = false -> format_event event = Ok None)
  /\ (forall (t : string) (parts : list part),
         get event "type" = VStr t -> In (t, parts) spec_templates ->
         exists pre : string,
           timestamp_prefix event = Ok pre
           /\ format_event event
              = Ok (Some match spec_line parts event with
                         | Some line => pre ++ line
                         | None => fallback_line t event
                         end)).
Proof.
  intros Hw.
  assert (Hh : hashable (get event "type") = true).
  { unfold well_shaped in Hw. repeat (apply andb_prop in Hw as [Hw ?]). exact Hw. }
  assert (Hrepo : dict_get "repo" event = None
                  \/ exists d : dict, dict_get "repo" event = Some (VDict d)).
  { unfold well_shaped in Hw. repeat (apply andb_prop in Hw as [Hw ?]).
    destruct (dict_get "repo" event) as [[| | | | | |d]|]; try discriminate; eauto. }
  assert (Hknown : forall (t : string) (parts : list part),
             get event "type" = VStr t -> In (t, parts) spec_templates ->
             exists pre : string,
               timestamp_prefix event = Ok pre
               /\ format_event event
                  = Ok (Some match spec_line parts event with
                             | Some line => pre ++ line
                             | None => fallback_line t event
                             end)).
  { intros t parts Ht Hin.
    destruct (timestamp_prefix_well_shaped _ Hw) as [pre Hpre].
    exists pre. split; [exact Hpre|].
    destruct (spec_row_parses _ _ Hin) as [template [Hl [Hp Hn]]].
    destruct (render_well_shaped event t parts parts Hw Hin (incl_refl _) Hn)
      as [[line Hline] | [key Hkey]].
    - assert (Hfmt : format template event = Ok line)
        by (unfold format; now rewrite Hp).
      rewrite (proj1 (render_spec_line _ _ _ Hn) Hline).
      rewrite (format_event_filled _ _ _ _ Ht Hl Hfmt), Hpre. reflexivity.
    - assert (Hfmt : format template event = Raise (KeyError key))
        by (unfold format; now rewrite Hp).
      destruct (spec_line parts event) as [line|] eqn:Hs.
      + apply (render_spec_line _ _ _ Hn) in Hs. rewrite Hs in Hkey. discriminate Hkey.
      + exact (format_event_missing_key _ _ _ _ Ht Hl Hfmt Hrepo). }
  split; [|split; [intros Hr; exact (format_event_unknown _ Hh Hr) | exact Hknown]].
  destruct (recognized event) eqn:Hr.
  - unfold recognized in Hr. destruct (get event "type") as [| | | |t| |] eqn:Ht;
      try discriminate Hr.
    apply known_type_row in Hr as [parts Hin].
    destruct (Hknown t parts eq_refl Hin) as [pre [_ Hf]]. eexists. exact Hf.
  - exists None. exact (format_event_unknown _ Hh Hr).
Qed.

Lemma format_event_on_well_shaped_record_witness :
  well_shaped push_without_commits = true
  /\ format_event push_without_commits = Ok (Some "PushEvent in octocat/Hello-World").
Proof.
  split; [reflexivity|].
  destruct (format_event_on_well_shaped_record push_without_commits eq_refl)
    as [_ [_ Hknown]].
  destruct (Hknown "PushEvent"
              [Text "Pushed "; Path ["payload"; "commits"]; Text " commits to ";
               Path ["repo"; "name"]] eq_refl (or_introl eq_refl))
    as [pre [_ Hf]].
  exact Hf.
Defined.

(** X13.  A line that [format_event] returns is never empty, so the loop,
    which tests the line for truth, prints every line the formatter
    returns. *)
Theorem formatted_line_is_printed
        (max_events c : Z) (event : dict) (rest : list dict) (line : string)
        (w : world) :
  format_event event = Ok (Some line) -> (c < max_events)%Z ->
  line <> ""
  /\ display_loop max_events (event :: rest) c w
     = display_loop max_events rest (c + 1)
         (mk_world (network w) (stdout w ++ [("• " ++ line)%string]) (stderr w)
                   (requests w)).
Proof.
  intros Hf Hc. split; [exact (format_event_line_nonempty _ _ Hf)|].
  now rewrite (display_loop_step _ _ _ _ _ _ Hc Hf).
Qed.

Lemma formatted_line_is_printed_witness :
  stdout (snd (display_loop 5 [watch_event] 0 (start (fun _ => Events []))))
  = ["• 2024-01-15 08:00 - Starred octocat/Hello-World"].
Proof.
  destruct (formatted_line_is_printed 5 0 watch_event []
              "2024-01-15 08:00 - Starred octocat/Hello-World"
              (start (fun _ => Events [])) eq_refl ltac:(lia)) as [_ Hstep].
  rewrite Hstep. reflexivity.
Defined.

(** ** The keys the formatter reads *)

Lemma render_same (pieces : list piece) (a b : dict) :
  (forall name : string,
      In name (flat_map field_name pieces) -> dict_get name a = dict_get name b) ->
  render pieces a = render pieces b.
Proof.
  induction pieces as [|p pieces IH]; intros Hsame; [reflexivity|].
  destruct p as [c | name keys]; cbn [render].
  - rewrite IH; [reflexivity|]. intros name Hn. apply Hsame. exact Hn.
  - unfold get_field. rewrite (Hsame name (or_introl eq_refl)).
    rewrite IH; [reflexivity|]. intros n Hn. apply Hsame. now right.
Qed.

Lemma template_names_read :
  forallb (fun name => existsb (String.eqb name) keys_read) template_names = true.
Proof. vm_compute. reflexivity. Qed.

Lemma format_same (t template : string) (a b : dict) :
  lookup t EVENT_MESSAGES = Some template -> same_on_keys_read a b ->
  format template a = format template b.
Proof.
  intros Hl Hsame. apply lookup_In in Hl. unfold format.
  destruct (parse_template template) as [pieces|] eqn:Hp; [|reflexivity].
  apply render_same. intros name Hn. apply Hsame.
  assert (Hin : In name template_names).
  { unfold template_names. apply in_flat_map. exists (t, template).
    split; [exact Hl|]. cbn [snd]. now rewrite Hp. }
  pose proof template_names_read as Hall. rewrite forallb_forall in Hall.
  specialize (Hall _ Hin). apply existsb_exists in Hall as [k [Hk Heq]].
  apply String.eqb_eq in Heq. now subst.
Qed.

(** X14.  [format_event] reads four keys of a record and no other: [type],
    [repo], [payload] and [created_at].  Two records that agree on these
    give the same result, whatever else they hold and in whatever order. *)
Theorem format_event_reads_four_keys (a b : dict) :
  same_on_keys_read a b -> format_event a = format_event b.
Proof.
  intros Hsame.
  assert (Ht : get a "type" = get b "type")
    by (unfold get; rewrite (Hsame "type"); [reflexivity | simpl; tauto]).
  assert (Hc : get a "created_at" = get b "created_at")
    by (unfold get; rewrite (Hsame "created_at"); [reflexivity | simpl; tauto]).
  assert (Hr : dict_get "repo" a = dict_get "repo" b)
    by (apply Hsame; simpl; tauto).
  unfold format_event. rewrite Ht, Hc, Hr.
  destruct (get b "type") as [| | | |t| |]; try reflexivity.
  cbn [contains subscript bind].
  destruct (lookup t EVENT_MESSAGES) as [template|] eqn:Hl; [|reflexivity].
  cbn [bind]. now rewrite (format_same _ _ _ _ Hl Hsame).
Qed.

Lemma format_event_reads_four_keys_witness :
  format_event (("id", VStr "1") :: ("actor", VNone) :: rev push_event)
  = format_event push_event.
Proof.
  apply (format_event_reads_four_keys
           (("id", VStr "1") :: ("actor", VNone) :: rev push_event) push_event).
  intros key Hkey. simpl in Hkey.
  destruct Hkey as [<- | [<- | [<- | [<- | []]]]]; reflexivity.
Defined.

(** ** Timestamps, once more *)

Lemma strftime_no_Z (dt : Datetime.datetime) : no_Z (Datetime.strftime dt) = true.
Proof.
  unfold no_Z, char_in, Datetime.strftime, Datetime.pad4, Datetime.pad2.
  cbn [append list_ascii_of_string existsb].
  rewrite !(Ascii.eqb_sym "Z"), !(digit_char_eqb _ "Z") by reflexivity.
  reflexivity.
Qed.

(** X15.  The timestamp formatter is idempotent on strings: formatting what
    it returned returns the same text again.  A line that already shows
    [YYYY-MM-DD HH:MM] is left as it is, and so is a text it could not
    read. *)
Theorem format_timestamp_idempotent (s out : string) :
  _format_timestamp (VStr s) = Ok out -> _format_timestamp (VStr out) = Ok out.
Proof.
  unfold _format_timestamp.
  destruct (Datetime.fromisoformat (replace "Z" "+00:00" s)) as [dt|] eqn:Hp;
    intros H; inversion H; subst.
  - rewrite (replace_no_Z _ (strftime_no_Z dt)).
    rewrite (strftime_reads_back dt (fromisoformat_valid _ _ Hp)).
    reflexivity.
  - now rewrite Hp.
Qed.

Lemma format_timestamp_idempotent_witness :
  _format_timestamp (VStr "2024-01-15T10:30:00Z") = Ok "2024-01-15 10:30"
  /\ _format_timestamp (VStr "2024-01-15 10:30") = Ok "2024-01-15 10:30".
Proof.
  split; [reflexivity|].
  apply (format_timestamp_idempotent "2024-01-15T10:30:00Z" "2024-01-15 10:30").
  reflexivity.
Defined.

(** ** The order of the checks on the command line *)


